(** * LiveLogs: the live-tailing log view of Explore

    A shallow embedding of [public/app/features/explore/LiveLogs.tsx] and
    the properties of its view-state bookkeeping: freeze on pause, the
    freshness threshold, the bounded row window, scroll preservation across
    pause and resume, and the time-zone dependent timestamp cells.

    Conventions of the embedding.
    - A JS [number] that holds an epoch in milliseconds or a pixel metric is
      an integer [Z].
    - A value of type [T | undefined] (or [T | null]) is an [option T].
    - Code that can throw runs in the error monad [js]; a property access on
      [undefined] is the only source of exceptions in this component.
    - Methods that assign to fields of [this] take the instance and return
      the new one; calls that leave the component (DOM scrolling, the
      [onPause] callback) are returned as a list of [Call]s, in order. *)

From Stdlib Require Import Ascii.
From stdpp Require Import base numbers list option strings pretty.

Local Open Scope Z_scope.

(** ** JavaScript runtime fragments *)

Inductive JsError : Type :=
  | TypeError.

Inductive js (A : Type) : Type :=
  | Done (a : A)
  | Throws (e : JsError).
Arguments Done {A} a.
Arguments Throws {A} e.

#[global] Instance js_ret : MRet js := fun A a => Done a.
#[global] Instance js_bind : MBind js := fun A B f m =>
  match m with
  | Done a => f a
  | Throws e => Throws e
  end.

(** [o.field]: reading a property of [undefined] throws a [TypeError]. *)
Definition member {O A : Type} (field : O -> A) (o : option O) : js A :=
  match o with
  | Some x => Done (field x)
  | None => Throws TypeError
  end.

(** Truthiness of an object reference that may be [undefined]/[null]. *)
Definition truthy {A : Type} (o : option A) : bool :=
  match o with
  | Some _ => true
  | None => false
  end.

(** Truthiness of a [number | null]: [null] and [0] are falsy. *)
Definition truthy_number (o : option Z) : bool :=
  match o with
  | Some n => negb (n =? 0)
  | None => false
  end.

Module lodash.

(** [_.last(array)]:
    [const length = array == null ? 0 : array.length;
     return length ? array[length - 1] : undefined]. *)
Definition last {A : Type} (array : option (list A)) : option A :=
  match array with
  | None => None
  | Some l =>
      let len := length l in
      if (len =? 0)%nat then None else l !! (len - 1)%nat
  end.

End lodash.

Module JsArray.

(** [Array.prototype.slice(start)] with [end] omitted: a negative [start]
    counts from the end and is clamped at 0, a positive one is clamped at
    the length. *)
Definition slice {A : Type} (start : Z) (l : list A) : list A :=
  let len := Z.of_nat (length l) in
  let k := if start <? 0 then Z.max (len + start) 0 else Z.min start len in
  drop (Z.to_nat k) l.

End JsArray.

(** A JSX child produced by [cond && <el/>] or [cond || <el/>]: React paints
    an element and paints nothing for a boolean. *)
Inductive JsxChild (A : Type) : Type :=
  | jsx_bool (b : bool)
  | jsx_element (a : A).
Arguments jsx_bool {A} b.
Arguments jsx_element {A} a.

Definition jsx_and {A : Type} (cond : bool) (el : A) : JsxChild A :=
  if cond then jsx_element el else jsx_bool false.

Definition jsx_or {A : Type} (cond : bool) (el : A) : JsxChild A :=
  if cond then jsx_bool true else jsx_element el.

Definition painted_child {A : Type} (ch : JsxChild A) : option A :=
  match ch with
  | jsx_bool _ => None
  | jsx_element a => Some a
  end.

Definition painted_children {A : Type} (chs : list (JsxChild A)) : list A :=
  omap painted_child chs.

(** ** Data model *)

(** [LogRowModel] of [@grafana/data], restricted to the fields the view
    reads. *)
Record LogRowModel : Type := mkLogRowModel {
  timeEpochMs : Z;
  timeLocal : string;
  timeUtc : string;
  timeFromNow : string;
  entry : string;
}.

(** [LogsModel] of [@grafana/data]: the view reads [rows] only. *)
Record LogsModel : Type := mkLogsModel {
  rows : list LogRowModel;
}.

#[global] Instance LogRowModel_eq_dec : EqDecision LogRowModel.
Proof. solve_decision. Defined.

#[global] Instance LogsModel_eq_dec : EqDecision LogsModel.
Proof. solve_decision. Defined.

(** [Props]: the callbacks [stopLive], [onPause], [onResume] and the theme
    carry no data; calling one is recorded as a [Call] or a [Handler]. *)
Record Props : Type := mkProps {
  logsResult : option LogsModel;
  timeZone : string;
  isPaused : bool;
}.

Record State : Type := mkState {
  logsResultToRender : option LogsModel;
  lastTimestamp : Z;
}.

#[global] Instance Props_eq_dec : EqDecision Props.
Proof. solve_decision. Defined.

#[global] Instance State_eq_dec : EqDecision State.
Proof. solve_decision. Defined.

(** The layout metrics of a DOM element that the component reads. *)
Record HTMLDivElement : Type := mkDiv {
  scrollTop : Z;
  clientHeight : Z;
  scrollHeight : Z;
}.

(** The component instance: [props], [state] and the three private fields. *)
Record LiveLogs : Type := mkLiveLogs {
  props : Props;
  state : State;
  liveEndDiv : option HTMLDivElement;
  scrollContainerRef : option HTMLDivElement;
  lastScrollPos : option Z;
}.

Definition set_props (p : Props) (this : LiveLogs) : LiveLogs :=
  mkLiveLogs p (state this) (liveEndDiv this) (scrollContainerRef this)
    (lastScrollPos this).

Definition set_state (s : State) (this : LiveLogs) : LiveLogs :=
  mkLiveLogs (props this) s (liveEndDiv this) (scrollContainerRef this)
    (lastScrollPos this).

Definition set_liveEndDiv (el : option HTMLDivElement) (this : LiveLogs)
  : LiveLogs :=
  mkLiveLogs (props this) (state this) el (scrollContainerRef this)
    (lastScrollPos this).

Definition set_scrollContainerRef (el : option HTMLDivElement)
  (this : LiveLogs) : LiveLogs :=
  mkLiveLogs (props this) (state this) (liveEndDiv this) el
    (lastScrollPos this).

Definition set_lastScrollPos (pos : option Z) (this : LiveLogs) : LiveLogs :=
  mkLiveLogs (props this) (state this) (liveEndDiv this)
    (scrollContainerRef this) pos.

(** Calls that leave the component. *)
Inductive Call : Type :=
  | liveEndDiv_scrollIntoView (alignToTop : bool)
  | scrollContainer_scrollTo (x y : Z)
  | onPause.

(** ** The component *)

(** [constructor(props)] *)
Definition constructor (p : Props) : LiveLogs :=
  {| props := p;
     state := {| logsResultToRender := logsResult p; lastTimestamp := 0 |};
     liveEndDiv := None;
     scrollContainerRef := None;
     lastScrollPos := None |}.

(** [static getDerivedStateFromProps(nextProps, state)]: [Some] is the
    returned object, [None] is [null]. *)
Definition getDerivedStateFromProps (nextProps : Props) (st : State)
  : js (option State) :=
  if negb (isPaused nextProps) then
    cond ←
      (if truthy (logsResultToRender st) then
         rs ← member rows (logsResultToRender st);
         mret (truthy (lodash.last (Some rs)))
       else mret false);
    ts ←
      (if cond : bool then
         rs ← member rows (logsResultToRender st);
         member timeEpochMs (lodash.last (Some rs))
       else mret 0);
    mret (Some {| logsResultToRender := logsResult nextProps;
                  lastTimestamp := ts |})
  else mret None.

(** [componentDidUpdate(prevProps)] *)
Definition componentDidUpdate (prevProps : Props) (this : LiveLogs)
  : js (LiveLogs * list Call) :=
  if negb (isPaused prevProps) && isPaused (props this) then
    if truthy_number (lastScrollPos this) then
      ch ← member clientHeight (scrollContainerRef this);
      sh ← member scrollHeight (scrollContainerRef this);
      let top := sh - (default 0 (lastScrollPos this) + ch) in
      mret (set_lastScrollPos None this, [scrollContainer_scrollTo 0 top])
    else
      if truthy (liveEndDiv this) then
        mret (this, [liveEndDiv_scrollIntoView false])
      else mret (this, [])
  else mret (this, []).

(** [onScroll(event)], with [target] the event's [currentTarget]. *)
Definition onScroll (target : HTMLDivElement) (this : LiveLogs)
  : LiveLogs * list Call :=
  let distanceFromBottom :=
    scrollHeight target - (scrollTop target + clientHeight target) in
  if (5 <=? distanceFromBottom) && negb (isPaused (props this)) then
    (set_lastScrollPos (Some distanceFromBottom) this, [onPause])
  else (this, []).

(** [rowsToRender()] *)
Definition rowsToRender (this : LiveLogs) : js (list LogRowModel) :=
  rs ←
    (if truthy (logsResultToRender (state this)) then
       member rows (logsResultToRender (state this))
     else mret []);
  if negb (isPaused (props this)) then mret (JsArray.slice (-100) rs)
  else mret rs.

(** [isFresh(row)] *)
Definition isFresh (this : LiveLogs) (row : LogRowModel) : bool :=
  lastTimestamp (state this) <? timeEpochMs row.

(** ** What [render()] returns *)

Inductive Handler : Type :=
  | this_onScroll
  | props_onPause
  | props_onResume
  | props_stopLive.

(** [styles.logsRowFresh] or [styles.logsRowOld]. *)
Inductive RowStyle : Type :=
  | logsRowFresh
  | logsRowOld.

(** The timestamp [<div>] of a row: its [title] (tooltip) and its text. *)
Record TimeCell : Type := mkTimeCell {
  title : string;
  text : string;
}.

Record RowView : Type := mkRowView {
  className : RowStyle;
  key : Z * nat;
  timeCells : list TimeCell;
  message : string;
}.

(** [<ElapsedTime resetKey={...} humanize={true} />] inside its [<span>]. *)
Record ElapsedTime : Type := mkElapsedTime {
  resetKey : option LogsModel;
  humanize : bool;
}.

Record View : Type := mkView {
  container_onScroll : option Handler;
  rowViews : list RowView;
  liveEndRef_isPaused : bool;
  pauseButton_onClick : Handler;
  pauseButton_icon : string;
  pauseButton_label : string;
  exitButton_onClick : Handler;
  lastLineReceived : option ElapsedTime;
}.

(** The body of the [map] callback in [render()]. *)
Definition renderRow (this : LiveLogs) (showUtc : bool) (index : nat)
  (row : LogRowModel) : RowView :=
  {| className := if isFresh this row then logsRowFresh else logsRowOld;
     key := (timeEpochMs row, index);
     timeCells :=
       painted_children
         [ jsx_and showUtc
             {| title :=
                  "Local: " +:+ timeLocal row +:+ " (" +:+ timeFromNow row
                    +:+ ")";
                text := timeUtc row |};
           jsx_and (negb showUtc)
             {| title := timeUtc row +:+ " (" +:+ timeFromNow row +:+ ")";
                text := timeLocal row |} ];
     message := entry row |}.

(** [render()]. The [ref] callback of the last [<div>] closes over
    [isPaused]; the view keeps that flag in [liveEndRef_isPaused] and
    [liveEndRef] below is the callback's body. *)
Definition render (this : LiveLogs) : js View :=
  let paused := isPaused (props this) in
  let showUtc := bool_decide (timeZone (props this) = "utc") in
  rs ← rowsToRender this;
  mret
    {| container_onScroll := if paused then None else Some this_onScroll;
       rowViews := imap (renderRow this showUtc) rs;
       liveEndRef_isPaused := paused;
       pauseButton_onClick := if paused then props_onResume else props_onPause;
       pauseButton_icon := if paused then "fa-play" else "fa-pause";
       pauseButton_label := if paused then "Resume" else "Pause";
       exitButton_onClick := props_stopLive;
       lastLineReceived :=
         painted_child
           (jsx_or paused
              {| resetKey := logsResult (props this); humanize := true |}) |}.

(** The [ref] callback: [element => { this.liveEndDiv = element; if
    (this.liveEndDiv && !isPaused) this.liveEndDiv.scrollIntoView(false) }]. *)
Definition liveEndRef (paused : bool) (element : option HTMLDivElement)
  (this : LiveLogs) : LiveLogs * list Call :=
  let this' := set_liveEndDiv element this in
  if truthy (liveEndDiv this') && negb paused then
    (this', [liveEndDiv_scrollIntoView false])
  else (this', []).

(** ** The React lifecycle around the component

    [LiveLogs] extends [PureComponent]; React drives it as follows. On mount:
    [constructor], [getDerivedStateFromProps], [render], then the refs are
    attached. On an update: [getDerivedStateFromProps], the shallow
    comparison of [PureComponent], and when it reports a change [render],
    the old [ref] callback with [null], the new one with the element, and
    [componentDidUpdate]. *)

(** The DOM elements behind the two refs, with their metrics after the
    paint. A ref points to a live element; the instance holds the metrics
    the element has at the commit, which is when [componentDidUpdate] reads
    them. *)
Record DOM : Type := mkDOM {
  container : HTMLDivElement;
  endDiv : HTMLDivElement;
}.

(** The mounted component: the instance and the view that is on screen. *)
Record World : Type := mkWorld {
  self : LiveLogs;
  painted : View;
}.

(** React merges the object returned by [getDerivedStateFromProps] into the
    state; the object here has every field of [State], [null] keeps the
    state. *)
Definition applyDerivedState (prev : State) (partial : option State) : State :=
  match partial with
  | Some s => s
  | None => prev
  end.

(** The state after one pass of [getDerivedStateFromProps]. *)
Definition deriveState (nextProps : Props) (st : State) : js State :=
  partial ← getDerivedStateFromProps nextProps st;
  mret (applyDerivedState st partial).

(** [PureComponent]'s [shouldComponentUpdate]: a shallow comparison of props
    and state. Fields that differ in content differ; [refsChanged] tells
    whether an object-valued field ([logsResult], a callback, the theme) is
    a new reference with equal content. *)
Definition shouldComponentUpdate (refsChanged : bool)
  (prevProps nextProps : Props) (prevState nextState : State) : bool :=
  refsChanged
  || negb (bool_decide (prevProps = nextProps))
  || negb (bool_decide (prevState = nextState)).

(** Mounting: React runs [getDerivedStateFromProps] before the first
    [render] as well. *)
Definition mount (p : Props) (dom : DOM) : js (World * list Call) :=
  let this := constructor p in
  st ← deriveState p (state this);
  let this := set_state st this in
  v ← render this;
  let this := set_scrollContainerRef (Some (container dom)) this in
  let '(this, calls) :=
    liveEndRef (liveEndRef_isPaused v) (Some (endDiv dom)) this in
  mret ({| self := this; painted := v |}, calls).

(** An update pushed by the parent. Props and state are stored even when
    the shallow comparison lets React skip the render; [componentDidUpdate]
    sees the new props in [this.props] and the old ones in [prevProps]. *)
Definition update (nextProps : Props) (refsChanged : bool) (dom : DOM)
  (w : World) : js (World * list Call) :=
  let prevProps := props (self w) in
  let prevState := state (self w) in
  st ← deriveState nextProps prevState;
  let this := set_state st (set_props nextProps (self w)) in
  if shouldComponentUpdate refsChanged prevProps nextProps prevState st then
    v ← render this;
    let '(this, calls1) :=
      liveEndRef (liveEndRef_isPaused (painted w)) None this in
    let this := set_scrollContainerRef (Some (container dom)) this in
    let '(this, calls2) :=
      liveEndRef (liveEndRef_isPaused v) (Some (endDiv dom)) this in
    '(this, calls3) ← componentDidUpdate prevProps this;
    mret ({| self := this; painted := v |}, calls1 ++ calls2 ++ calls3)
  else mret ({| self := this; painted := painted w |}, []).

(** A scroll event on the container reaches [onScroll] only when the painted
    view has the listener. *)
Definition scrollEvent (target : HTMLDivElement) (w : World)
  : World * list Call :=
  match container_onScroll (painted w) with
  | Some this_onScroll =>
      let '(this, calls) := onScroll target (self w) in
      ({| self := this; painted := painted w |}, calls)
  | _ => (w, [])
  end.

(** The worlds React can bring the component to. *)
Inductive reachable : World -> Prop :=
  | reach_mount p dom w calls :
      mount p dom = Done (w, calls) -> reachable w
  | reach_update w nextProps refsChanged dom w' calls :
      reachable w ->
      update nextProps refsChanged dom w = Done (w', calls) ->
      reachable w'
  | reach_scroll w target w' calls :
      reachable w ->
      scrollEvent target w = (w', calls) ->
      reachable w'.

(** A run of updates, collecting the worlds after each commit. *)
Fixpoint updates (us : list (Props * bool * DOM)) (w : World)
  : js (list World) :=
  match us with
  | [] => mret []
  | (p, refsChanged, dom) :: us' =>
      '(w', _) ← update p refsChanged dom w;
      ws ← updates us' w';
      mret (w' :: ws)
  end.

(** * Vocabulary of the properties *)

(** ** The rendered snapshot, as the specification speaks of it *)

(** The rows of the rendered snapshot; an absent snapshot has none. *)
Definition snapshotRows (st : State) : list LogRowModel :=
  match logsResultToRender st with
  | Some m => rows m
  | None => []
  end.

(** The [timeEpochMs] of the last row of the rendered snapshot, 0 when the
    snapshot is absent or has no row. *)
Definition lastRowTime (st : State) : Z :=
  match last (snapshotRows st) with
  | Some r => timeEpochMs r
  | None => 0
  end.

(** ** The lifecycle, resolved step by step *)

(** The view [render] returns, with the row list spelled out. *)
Definition viewOf (this : LiveLogs) (rs : list LogRowModel) : View :=
  let paused := isPaused (props this) in
  {| container_onScroll := if paused then None else Some this_onScroll;
     rowViews :=
       imap (renderRow this (bool_decide (timeZone (props this) = "utc"))) rs;
     liveEndRef_isPaused := paused;
     pauseButton_onClick := if paused then props_onResume else props_onPause;
     pauseButton_icon := if paused then "fa-play" else "fa-pause";
     pauseButton_label := if paused then "Resume" else "Pause";
     exitButton_onClick := props_stopLive;
     lastLineReceived :=
       if paused then None
       else Some {| resetKey := logsResult (props this); humanize := true |} |}.

(** The rows [rowsToRender] selects, as a function of the instance. *)
Definition shownRows (this : LiveLogs) : list LogRowModel :=
  if isPaused (props this) then snapshotRows (state this)
  else drop (length (snapshotRows (state this)) - 100)
         (snapshotRows (state this)).

(** The state after [getDerivedStateFromProps] has run on [p]. *)
Definition nextState (p : Props) (st : State) : State :=
  if isPaused p then st
  else {| logsResultToRender := logsResult p;
          lastTimestamp := lastRowTime st |}.

(** One commit of an update, with every step of the lifecycle resolved. *)
Definition committed (p : Props) (dom : DOM) (w : World) : World * list Call :=
  let st := nextState p (state (self w)) in
  let pos := lastScrollPos (self w) in
  let this :=
    mkLiveLogs p st (Some (endDiv dom)) (Some (container dom)) pos in
  let v := viewOf this (shownRows this) in
  let follow := if isPaused p then [] else [liveEndDiv_scrollIntoView false] in
  if negb (isPaused (props (self w))) && isPaused p then
    if truthy_number pos then
      ({| self := set_lastScrollPos None this; painted := v |},
       follow ++
         [scrollContainer_scrollTo 0
            (scrollHeight (container dom)
               - (default 0 pos + clientHeight (container dom)))])
    else ({| self := this; painted := v |},
          follow ++ [liveEndDiv_scrollIntoView false])
  else ({| self := this; painted := v |}, follow).

(** An update React bails out of: props and state are stored, nothing is
    painted and no lifecycle method runs. *)
Definition skipped (p : Props) (w : World) : World * list Call :=
  ({| self :=
        set_state (nextState p (state (self w))) (set_props p (self w));
      painted := painted w |}, []).

(** What every reachable world satisfies: the painted view is the render of
    the instance, no offset is pending while paused, and a pending offset
    is at least the 5 pixels [onScroll] asks for. *)
Record invariant (w : World) : Prop := mkInvariant {
  inv_painted : painted w = viewOf (self w) (shownRows (self w));
  inv_paused : isPaused (props (self w)) = true -> lastScrollPos (self w) = None;
  inv_offset : forall d, lastScrollPos (self w) = Some d -> 5 <= d;
}.

(** ** Concrete inputs used by the instances of the theorems *)

Definition rowAt (t : Z) : LogRowModel :=
  {| timeEpochMs := t; timeLocal := "local"; timeUtc := "utc";
     timeFromNow := "now"; entry := "line" |}.

Definition logsUpTo (t : Z) : LogsModel := {| rows := [rowAt (t - 1); rowAt t] |}.

Definition liveProps (logs : option LogsModel) : Props :=
  {| logsResult := logs; timeZone := "browser"; isPaused := false |}.

Definition pausedProps (logs : option LogsModel) : Props :=
  {| logsResult := logs; timeZone := "browser"; isPaused := true |}.

Definition domOf (top client height : Z) : DOM :=
  {| container := mkDiv top client height; endDiv := mkDiv 0 0 0 |}.

(** The world after mounting live on a result whose last row is at t=100. *)
Definition liveWorld : World :=
  let this :=
    mkLiveLogs (liveProps (Some (logsUpTo 100)))
      {| logsResultToRender := Some (logsUpTo 100); lastTimestamp := 100 |}
      (Some (mkDiv 0 0 0)) (Some (mkDiv 500 500 1000)) None in
  {| self := this; painted := viewOf this (shownRows this) |}.

(** The world after the user scrolled 50 pixels up and the caller paused. *)
Definition pausedWorld : World :=
  let this :=
    mkLiveLogs (pausedProps (Some (logsUpTo 200)))
      {| logsResultToRender := Some (logsUpTo 100); lastTimestamp := 100 |}
      (Some (mkDiv 0 0 0)) (Some (mkDiv 450 500 1200)) None in
  {| self := this; painted := viewOf this (shownRows this) |}.

(** A result that is [undefined] or whose [rows] is empty. *)
Definition noRows (logs : option LogsModel) : Prop :=
  logs = None \/ exists m, logs = Some m /\ rows m = [].

(** ** Vocabulary of the further properties *)

(** Rows in non-decreasing [timeEpochMs] order, as the streaming layer
    delivers them. *)
Definition nonDecreasing (rs : list LogRowModel) : Prop :=
  forall (i j : nat) (ri rj : LogRowModel),
    (i <= j)%nat -> rs !! i = Some ri -> rs !! j = Some rj ->
    timeEpochMs ri <= timeEpochMs rj.

(** The distance from the bottom that [onScroll] computes. *)
Definition distanceFromBottom (target : HTMLDivElement) : Z :=
  scrollHeight target - (scrollTop target + clientHeight target).

(** The React key of a row, [`${row.timeEpochMs}-${index}`], from the two
    interpolated values kept in [key]: both print in decimal. *)
Definition keyText (k : Z * nat) : string :=
  pretty k.1 +:+ "-" +:+ pretty k.2.

(** What happens to a mounted view: the parent pushes props, or the user
    scrolls the container. *)
Inductive Event : Type :=
  | Update (nextProps : Props) (refsChanged : bool) (dom : DOM)
  | Scroll (target : HTMLDivElement).

(** A trace of events, with all the calls it makes, in order. *)
Fixpoint run (es : list Event) (w : World) : js (World * list Call) :=
  match es with
  | [] => mret (w, [])
  | Update p refsChanged dom :: es' =>
      '(w1, calls1) ← update p refsChanged dom w;
      '(w2, calls2) ← run es' w1;
      mret (w2, calls1 ++ calls2)
  | Scroll target :: es' =>
      let '(w1, calls1) := scrollEvent target w in
      '(w2, calls2) ← run es' w1;
      mret (w2, calls1 ++ calls2)
  end.

(** An event that keeps the view live: an update with [isPaused] false, or
    any scroll. *)
Definition keepsLive (e : Event) : Prop :=
  match e with
  | Update p _ _ => isPaused p = false
  | Scroll _ => True
  end.

(** The distance of the latest scroll event of the trace that was at least
    5 pixels from the bottom, [pos] when there is none. *)
Definition latestScrollAway (es : list Event) (pos : option Z) : option Z :=
  foldl (fun pos e =>
           match e with
           | Scroll target =>
               if 5 <=? distanceFromBottom target
               then Some (distanceFromBottom target) else pos
           | Update _ _ _ => pos
           end) pos es.

#[global] Instance Call_eq_dec : EqDecision Call.
Proof. solve_decision. Defined.

(** How many times a list of calls invokes the [onPause] callback. *)
Definition onPauseCalls (calls : list Call) : nat :=
  length (filter (fun c => c = onPause) calls).

(** A scroll event at least 5 pixels away from the bottom. *)
Definition scrollsAway (e : Event) : bool :=
  match e with
  | Scroll target => 5 <=? distanceFromBottom target
  | Update _ _ _ => false
  end.

(** An event that keeps the view paused: an update with [isPaused] true,
    or any scroll. *)
Definition keepsPaused (e : Event) : Prop :=
  match e with
  | Update p _ _ => isPaused p = true
  | Scroll _ => True
  end.

(** A string without the character ["-"]. *)
Fixpoint noDash (s : string) : Prop :=
  match s with
  | EmptyString => True
  | String c s' => c <> "-"%char /\ noDash s'
  end.

(** * Properties *)

(** ** The runtime fragments *)

Lemma lodash_last_is_last {A : Type} (l : list A) :
  lodash.last (Some l) = last l.
Proof.
  unfold lodash.last. rewrite last_lookup.
  destruct l as [|x l]; simpl; [done|].
  by rewrite Nat.sub_0_r.
Qed.

Lemma slice_last_100 {A : Type} (l : list A) :
  JsArray.slice (-100) l = drop (length l - 100) l.
Proof.
  unfold JsArray.slice. simpl. f_equal. lia.
Qed.

(** ** [getDerivedStateFromProps] *)

Lemma getDerivedStateFromProps_paused (p : Props) (st : State) :
  isPaused p = true -> getDerivedStateFromProps p st = Done None.
Proof. intros Hp. unfold getDerivedStateFromProps. by rewrite Hp. Qed.

Lemma getDerivedStateFromProps_live (p : Props) (st : State) :
  isPaused p = false ->
  getDerivedStateFromProps p st =
    Done (Some {| logsResultToRender := logsResult p;
                  lastTimestamp := lastRowTime st |}).
Proof.
  intros Hp. unfold getDerivedStateFromProps, lastRowTime, snapshotRows.
  rewrite Hp.
  destruct (logsResultToRender st) as [m|]; cbn -[lodash.last]; [|done].
  rewrite lodash_last_is_last.
  by destruct (last (rows m)).
Qed.

Lemma deriveState_paused (p : Props) (st : State) :
  isPaused p = true -> deriveState p st = Done st.
Proof.
  intros Hp. unfold deriveState.
  by rewrite getDerivedStateFromProps_paused.
Qed.

Lemma deriveState_live (p : Props) (st : State) :
  isPaused p = false ->
  deriveState p st =
    Done {| logsResultToRender := logsResult p;
            lastTimestamp := lastRowTime st |}.
Proof.
  intros Hp. unfold deriveState.
  by rewrite getDerivedStateFromProps_live.
Qed.

(** ** [rowsToRender], [render] *)

Lemma rowsToRender_eq (this : LiveLogs) :
  rowsToRender this =
    Done (if isPaused (props this) then snapshotRows (state this)
          else drop (length (snapshotRows (state this)) - 100)
                 (snapshotRows (state this))).
Proof.
  unfold rowsToRender, snapshotRows.
  destruct (logsResultToRender (state this)) as [m|]; simpl;
    destruct (isPaused (props this)); simpl;
    by rewrite ?slice_last_100.
Qed.

Lemma render_eq (this : LiveLogs) :
  render this =
    Done (viewOf this
            (if isPaused (props this) then snapshotRows (state this)
             else drop (length (snapshotRows (state this)) - 100)
                    (snapshotRows (state this)))).
Proof.
  unfold render. rewrite rowsToRender_eq. simpl.
  unfold viewOf. by destruct (isPaused (props this)).
Qed.

(** ** The lifecycle, unfolded *)

Lemma deriveState_eq (p : Props) (st : State) :
  deriveState p st = Done (nextState p st).
Proof.
  unfold nextState. destruct (isPaused p) eqn:Hp.
  - by apply deriveState_paused.
  - by apply deriveState_live.
Qed.

Lemma render_shown (this : LiveLogs) :
  render this = Done (viewOf this (shownRows this)).
Proof. apply render_eq. Qed.

Lemma shouldComponentUpdate_isPaused_changed rc p p' s s' :
  isPaused p <> isPaused p' -> shouldComponentUpdate rc p p' s s' = true.
Proof.
  intros Hne. unfold shouldComponentUpdate.
  rewrite (bool_decide_eq_false_2 (p = p')) by congruence.
  by destruct rc.
Qed.

Lemma shouldComponentUpdate_false rc p p' s s' :
  shouldComponentUpdate rc p p' s s' = false -> p = p' /\ s = s'.
Proof.
  unfold shouldComponentUpdate.
  destruct rc; simpl; [done|].
  do 2 case_bool_decide; simpl; try done.
Qed.

Lemma update_eq (p : Props) (rc : bool) (dom : DOM) (w : World) :
  update p rc dom w =
    Done (if shouldComponentUpdate rc (props (self w)) p (state (self w))
               (nextState p (state (self w)))
          then committed p dom w else skipped p w).
Proof.
  unfold update. rewrite deriveState_eq. cbn [mbind js_bind].
  destruct (shouldComponentUpdate _ _ _ _ _); [|done].
  rewrite render_shown. cbn [mbind js_bind].
  unfold committed, componentDidUpdate, liveEndRef, viewOf.
  destruct w as [[p0 s0 e0 r0 pos] v0]; simpl.
  destruct (isPaused p) eqn:Hp, (isPaused p0) eqn:Hp0; simpl;
    rewrite ?Hp; try reflexivity.
  destruct (truthy_number pos); reflexivity.
Qed.

Lemma update_total (p : Props) (rc : bool) (dom : DOM) (w : World) :
  exists w' calls, update p rc dom w = Done (w', calls).
Proof.
  rewrite update_eq.
  destruct (shouldComponentUpdate _ _ _ _ _);
    [destruct (committed p dom w) as [w' calls]
    |destruct (skipped p w) as [w' calls]]; by exists w', calls.
Qed.

Lemma update_state (p : Props) (rc : bool) (dom : DOM) (w w' : World) calls :
  update p rc dom w = Done (w', calls) ->
  props (self w') = p /\ state (self w') = nextState p (state (self w)).
Proof.
  rewrite update_eq. intros [= Heq].
  destruct (shouldComponentUpdate _ _ _ _ _).
  - unfold committed in Heq.
    destruct (negb _ && _); [destruct (truthy_number _)|];
      by inversion Heq.
  - by inversion Heq.
Qed.

Lemma mount_eq (p : Props) (dom : DOM) :
  mount p dom =
    let st := nextState p {| logsResultToRender := logsResult p;
                             lastTimestamp := 0 |} in
    let this :=
      mkLiveLogs p st (Some (endDiv dom)) (Some (container dom)) None in
    Done ({| self := this; painted := viewOf this (shownRows this) |},
          if isPaused p then [] else [liveEndDiv_scrollIntoView false]).
Proof.
  unfold mount. rewrite deriveState_eq. cbn [mbind js_bind].
  rewrite render_shown. cbn [mbind js_bind].
  unfold liveEndRef, viewOf. simpl.
  by destruct (isPaused p).
Qed.

(** ** What holds in every reachable world *)

Lemma truthy_number_saved (pos : option Z) :
  (forall d, pos = Some d -> 5 <= d) -> truthy_number pos = truthy pos.
Proof.
  intros Hpos. destruct pos as [d|]; simpl; [|done].
  specialize (Hpos d eq_refl). apply negb_true_iff, Z.eqb_neq. lia.
Qed.

Lemma invariant_mount p dom w calls :
  mount p dom = Done (w, calls) -> invariant w.
Proof.
  rewrite mount_eq. intros [= <- _]. by split.
Qed.

Lemma invariant_committed p dom w :
  invariant w -> invariant (committed p dom w).1.
Proof.
  intros [Hv Hp Hd]. unfold committed.
  destruct (isPaused (props (self w))) eqn:Hp0; simpl.
  - rewrite Hp by done. by split.
  - destruct (isPaused p) eqn:Hp1; simpl.
    + rewrite (truthy_number_saved _ Hd).
      destruct (lastScrollPos (self w)) as [d|] eqn:Hpos; simpl;
        by split.
    + split; simpl; [done|by rewrite Hp1|done].
Qed.

Lemma invariant_skipped rc p w :
  shouldComponentUpdate rc (props (self w)) p (state (self w))
    (nextState p (state (self w))) = false ->
  invariant w -> invariant (skipped p w).1.
Proof.
  intros [<- Hst]%shouldComponentUpdate_false [Hv Hp Hd].
  unfold skipped. rewrite <- Hst.
  destruct w as [[p0 s0 e0 r0 pos] v0]. by split.
Qed.

Lemma invariant_update p rc dom w w' calls :
  update p rc dom w = Done (w', calls) -> invariant w -> invariant w'.
Proof.
  rewrite update_eq. intros [= Heq] Hw.
  destruct (shouldComponentUpdate _ _ _ _ _) eqn:Hs.
  - replace w' with (committed p dom w).1 by by rewrite Heq.
    by apply invariant_committed.
  - replace w' with (skipped p w).1 by by rewrite Heq.
    by eapply invariant_skipped.
Qed.

Lemma invariant_scrollEvent target w w' calls :
  scrollEvent target w = (w', calls) -> invariant w -> invariant w'.
Proof.
  unfold scrollEvent, onScroll. intros Heq [Hv Hp Hd].
  destruct (container_onScroll (painted w)) as [[]|];
    try (by inversion Heq; subst).
  destruct (5 <=? _) eqn:Hfive; simpl in Heq;
    [destruct (isPaused (props (self w))) eqn:Hp0; simpl in Heq|];
    inversion Heq; subst; clear Heq; split; simpl; try done.
  - intros _. by apply Hp.
  - by rewrite Hp0.
  - intros d [= <-]. by apply Z.leb_le.
Qed.

Lemma reachable_invariant (w : World) : reachable w -> invariant w.
Proof.
  induction 1 as [p dom w calls Hm|w p rc dom w' calls _ IH Hu
                 |w target w' calls _ IH Hs].
  - by eapply invariant_mount.
  - by eapply invariant_update.
  - by eapply invariant_scrollEvent.
Qed.

(** ** The concrete worlds *)

Lemma liveWorld_mounted :
  mount (liveProps (Some (logsUpTo 100))) (domOf 500 500 1000)
    = Done (liveWorld, [liveEndDiv_scrollIntoView false]).
Proof. reflexivity. Qed.

Lemma liveWorld_reachable : reachable liveWorld.
Proof. eapply reach_mount, liveWorld_mounted. Qed.

(** ** Freeze on pause *)

Lemma updates_paused (us : list (Props * bool * DOM)) (w : World) :
  Forall (fun u => isPaused u.1.1 = true) us ->
  exists ws,
    updates us w = Done ws
    /\ length ws = length us
    /\ Forall (fun w' => state (self w') = state (self w)
                         /\ isPaused (props (self w')) = true) ws.
Proof.
  intros Hus. revert w.
  induction Hus as [|[[p rc] dom] us Hp _ IH]; intros w; simpl in *.
  - by exists [].
  - destruct (update_total p rc dom w) as (w' & calls & Hu).
    destruct (update_state _ _ _ _ _ _ Hu) as [Hprops Hstate].
    unfold nextState in Hstate. rewrite Hp in Hstate.
    destruct (IH w') as (ws & Hws & Hlen & Hall).
    exists (w' :: ws). rewrite Hu. cbn [mbind js_bind]. rewrite Hws.
    split; [done|]. split; [simpl; by rewrite Hlen|].
    constructor; [by rewrite Hprops|].
    eapply Forall_impl; [exact Hall|].
    intros w1 [H1 H2]. by rewrite H1, Hstate.
Qed.

(** C1. While [isPaused] is true throughout a sequence of external updates,
    [getDerivedStateFromProps] returns [null] at each of them, every update
    completes, and the state after each update is the state before the
    span: the rendered snapshot [logsResultToRender], the freshness
    threshold [lastTimestamp] and the rows selected for painting are the
    same at any two renders of the span. *)
Theorem paused_updates_freeze_view
  (us : list (Props * bool * DOM)) (w : World) :
  Forall (fun u => isPaused u.1.1 = true) us ->
  Forall (fun u => forall st, getDerivedStateFromProps u.1.1 st = Done None) us
  /\ exists ws,
       updates us w = Done ws
       /\ length ws = length us
       /\ (forall w1, w1 ∈ ws -> state (self w1) = state (self w))
       /\ (forall w1 w2, w1 ∈ ws -> w2 ∈ ws ->
             logsResultToRender (state (self w1))
               = logsResultToRender (state (self w2))
             /\ lastTimestamp (state (self w1))
                  = lastTimestamp (state (self w2))
             /\ rowsToRender (self w1) = rowsToRender (self w2)).
Proof.
  intros Hus. split.
  - eapply Forall_impl; [exact Hus|].
    intros u Hu st. by apply getDerivedStateFromProps_paused.
  - destruct (updates_paused us w Hus) as (ws & Hws & Hlen & Hall).
    exists ws. rewrite Forall_forall in Hall.
    split; [done|]. split; [done|]. split.
    + intros w1 H1. by destruct (Hall w1 H1).
    + intros w1 w2 H1 H2.
      destruct (Hall w1 H1) as [E1 P1], (Hall w2 H2) as [E2 P2].
      rewrite !rowsToRender_eq. by rewrite E1, E2, P1, P2.
Qed.

(** Two paused updates after a live mount, the first delivering a longer
    result and the second none: both leave the snapshot of t=100 in place. *)
Lemma paused_updates_freeze_view_witness :
  Forall (fun u => forall st, getDerivedStateFromProps u.1.1 st = Done None)
    [ (pausedProps (Some (logsUpTo 200)), true, domOf 500 500 1000);
      (pausedProps None, true, domOf 500 500 1000) ]
  /\ exists ws,
       updates
         [ (pausedProps (Some (logsUpTo 200)), true, domOf 500 500 1000);
           (pausedProps None, true, domOf 500 500 1000) ] liveWorld = Done ws
       /\ length ws = 2%nat
       /\ (forall w1, w1 ∈ ws -> state (self w1) = state (self liveWorld))
       /\ (forall w1 w2, w1 ∈ ws -> w2 ∈ ws ->
             logsResultToRender (state (self w1))
               = logsResultToRender (state (self w2))
             /\ lastTimestamp (state (self w1))
                  = lastTimestamp (state (self w2))
             /\ rowsToRender (self w1) = rowsToRender (self w2)).
Proof.
  apply (paused_updates_freeze_view
           [ (pausedProps (Some (logsUpTo 200)), true, domOf 500 500 1000);
             (pausedProps None, true, domOf 500 500 1000) ] liveWorld).
  repeat constructor.
Defined.

(** ** The freshness threshold *)

(** C2. At every unpaused update the derived state takes the incoming
    [logsResult] as snapshot and, as threshold, the [timeEpochMs] of the
    last row of the snapshot held before the update (not of the incoming
    data), or 0 when that snapshot is absent or has no row. For three
    successive unpaused updates whose results end at t=100, t=200 and t=300
    the threshold is 100 after the second and 200 after the third. *)
Theorem live_update_threshold_is_previous_last_row :
  (forall (w : World) (p : Props) (rc : bool) (dom : DOM),
     isPaused p = false ->
     exists w' calls,
       update p rc dom w = Done (w', calls)
       /\ getDerivedStateFromProps p (state (self w))
            = Done (Some (state (self w')))
       /\ logsResultToRender (state (self w')) = logsResult p
       /\ (forall m older r,
             logsResultToRender (state (self w)) = Some m ->
             rows m = older ++ [r] ->
             lastTimestamp (state (self w')) = timeEpochMs r)
       /\ (logsResultToRender (state (self w)) = None ->
           lastTimestamp (state (self w')) = 0)
       /\ (forall m,
             logsResultToRender (state (self w)) = Some m ->
             rows m = [] ->
             lastTimestamp (state (self w')) = 0))
  /\ (forall (w0 : World) (p1 p2 p3 : Props) (rc1 rc2 rc3 : bool)
        (dom1 dom2 dom3 : DOM) (m1 m2 m3 : LogsModel)
        (older1 older2 older3 : list LogRowModel) (r1 r2 r3 : LogRowModel),
        isPaused p1 = false -> isPaused p2 = false -> isPaused p3 = false ->
        logsResult p1 = Some m1 -> rows m1 = older1 ++ [r1] ->
        logsResult p2 = Some m2 -> rows m2 = older2 ++ [r2] ->
        logsResult p3 = Some m3 -> rows m3 = older3 ++ [r3] ->
        timeEpochMs r1 = 100 -> timeEpochMs r2 = 200 ->
        timeEpochMs r3 = 300 ->
        exists w1 w2 w3,
          updates [(p1, rc1, dom1); (p2, rc2, dom2); (p3, rc3, dom3)] w0
            = Done [w1; w2; w3]
          /\ lastTimestamp (state (self w2)) = 100
          /\ lastTimestamp (state (self w3)) = 200).
Proof.
  assert (Hlast : forall st m older r,
             logsResultToRender st = Some m -> rows m = older ++ [r] ->
             lastRowTime st = timeEpochMs r).
  { intros st m older r Hm Hr. unfold lastRowTime, snapshotRows.
    by rewrite Hm, Hr, last_snoc. }
  split.
  - intros w p rc dom Hp.
    destruct (update_total p rc dom w) as (w' & calls & Hu).
    destruct (update_state _ _ _ _ _ _ Hu) as [_ Hst].
    unfold nextState in Hst. rewrite Hp in Hst.
    exists w', calls. split; [done|]. rewrite Hst. simpl.
    split; [by apply getDerivedStateFromProps_live|].
    split; [done|]. split; [|split].
    + intros m older r Hm Hr. by eapply Hlast.
    + intros Hm. unfold lastRowTime, snapshotRows. by rewrite Hm.
    + intros m Hm Hr. unfold lastRowTime, snapshotRows. by rewrite Hm, Hr.
  - intros w0 p1 p2 p3 rc1 rc2 rc3 dom1 dom2 dom3 m1 m2 m3
      older1 older2 older3 r1 r2 r3 Hp1 Hp2 Hp3 Hl1 Hr1 Hl2 Hr2 Hl3 Hr3
      Ht1 Ht2 Ht3.
    destruct (update_total p1 rc1 dom1 w0) as (w1 & c1 & Hu1).
    destruct (update_total p2 rc2 dom2 w1) as (w2 & c2 & Hu2).
    destruct (update_total p3 rc3 dom3 w2) as (w3 & c3 & Hu3).
    destruct (update_state _ _ _ _ _ _ Hu1) as [_ Hs1].
    destruct (update_state _ _ _ _ _ _ Hu2) as [_ Hs2].
    destruct (update_state _ _ _ _ _ _ Hu3) as [_ Hs3].
    unfold nextState in Hs1, Hs2, Hs3. rewrite Hp1 in Hs1.
    rewrite Hp2 in Hs2. rewrite Hp3 in Hs3.
    exists w1, w2, w3. simpl. rewrite Hu1. cbn [mbind js_bind].
    rewrite Hu2. cbn [mbind js_bind]. rewrite Hu3. cbn [mbind js_bind].
    split; [done|]. rewrite Hs2, Hs3. simpl. split.
    + rewrite <- Ht1. eapply Hlast; [|exact Hr1]. by rewrite Hs1.
    + rewrite <- Ht2. eapply Hlast; [|exact Hr2]. by rewrite Hs2.
Qed.

(** The three-update run of the claim, started from a freshly mounted view
    without data. *)
Lemma live_update_threshold_witness :
  exists w1 w2 w3,
    updates
      [ (liveProps (Some (logsUpTo 100)), true, domOf 0 500 500);
        (liveProps (Some (logsUpTo 200)), true, domOf 0 500 500);
        (liveProps (Some (logsUpTo 300)), true, domOf 0 500 500) ]
      {| self := constructor (liveProps None);
         painted := viewOf (constructor (liveProps None)) [] |}
      = Done [w1; w2; w3]
    /\ lastTimestamp (state (self w2)) = 100
    /\ lastTimestamp (state (self w3)) = 200.
Proof.
  apply (proj2 live_update_threshold_is_previous_last_row
           _ _ _ _ true true true _ _ _
           (logsUpTo 100) (logsUpTo 200) (logsUpTo 300)
           [rowAt 99] [rowAt 199] [rowAt 299]
           (rowAt 100) (rowAt 200) (rowAt 300));
    reflexivity.
Defined.

(** ** The rows that are painted *)

(** C3. At every render the painted rows are, in order, the last
    [min 100 total] rows of the rendered snapshot while unpaused (the
    oldest rows are cut off) and the whole snapshot while paused. *)
Theorem rowsToRender_last_100_or_all (this : LiveLogs) :
  let all := snapshotRows (state this) in
  exists shown v,
    rowsToRender this = Done shown
    /\ render this = Done v
    /\ rowViews v
         = imap (renderRow this (bool_decide (timeZone (props this) = "utc")))
             shown
    /\ length (rowViews v) = length shown
    /\ (isPaused (props this) = false ->
        length shown = Nat.min 100 (length all)
        /\ shown = drop (length all - length shown) all
        /\ exists oldest, all = oldest ++ shown)
    /\ (isPaused (props this) = true ->
        shown = all /\ length shown = length all).
Proof.
  intros all. exists (shownRows this), (viewOf this (shownRows this)).
  split; [apply rowsToRender_eq|]. split; [apply render_shown|].
  split; [done|]. split; [apply length_imap|].
  unfold shownRows. fold all. split; intros ->; [|done].
  assert (Hlen : length (drop (length all - 100) all)
                 = Nat.min 100 (length all)).
  { rewrite length_drop. lia. }
  split; [done|]. split.
  - rewrite Hlen. f_equal. lia.
  - exists (take (length all - 100) all). by rewrite take_drop.
Qed.

(** 250 rows: the last 100 while live, all 250 once paused. *)
Lemma rowsToRender_last_100_or_all_witness :
  let rs := map (fun n => rowAt (Z.of_nat n)) (seq 0 250) in
  let live :=
    mkLiveLogs (liveProps None) (mkState (Some (mkLogsModel rs)) 0)
      None None None in
  let frozen :=
    mkLiveLogs (pausedProps None) (mkState (Some (mkLogsModel rs)) 0)
      None None None in
  (exists shown,
     rowsToRender live = Done shown /\ length shown = 100%nat
     /\ shown = drop 150 rs)
  /\ (exists shown, rowsToRender frozen = Done shown /\ shown = rs).
Proof.
  intros rs live frozen. split.
  - destruct (rowsToRender_last_100_or_all live)
      as (shown & v & Hshown & _ & _ & _ & Hlive & _).
    destruct (Hlive eq_refl) as (Hlen & Hdrop & _).
    exists shown. split; [exact Hshown|]. split; [exact Hlen|].
    rewrite Hdrop, Hlen. reflexivity.
  - destruct (rowsToRender_last_100_or_all frozen)
      as (shown & v & Hshown & _ & _ & _ & _ & Hpaused).
    destruct (Hpaused eq_refl) as (Hall & _).
    exists shown. split; [exact Hshown|exact Hall].
Defined.

(** ** Freshness *)

(** C6. A row is fresh exactly when its [timeEpochMs] is strictly greater
    than the threshold [lastTimestamp]; the result depends on that pair
    only, so two instances with the same threshold classify rows with the
    same timestamp alike, whatever else differs; the painted row carries
    the fresh style exactly for fresh rows. *)
Theorem isFresh_iff_newer_than_threshold :
  (forall (this : LiveLogs) (row : LogRowModel),
     isFresh this row = true
     <-> lastTimestamp (state this) < timeEpochMs row)
  /\ (forall (this1 this2 : LiveLogs) (row1 row2 : LogRowModel),
        timeEpochMs row1 = timeEpochMs row2 ->
        lastTimestamp (state this1) = lastTimestamp (state this2) ->
        isFresh this1 row1 = isFresh this2 row2)
  /\ (forall (this : LiveLogs) (showUtc : bool) (index : nat)
        (row : LogRowModel),
        className (renderRow this showUtc index row)
          = if isFresh this row then logsRowFresh else logsRowOld).
Proof.
  split; [|split].
  - intros this row. unfold isFresh. apply Z.ltb_lt.
  - intros this1 this2 row1 row2 Ht Hs. unfold isFresh. by rewrite Ht, Hs.
  - done.
Qed.

(** With the threshold at 100, a row at 101 is fresh and a row at 100 is
    not. *)
Lemma isFresh_iff_newer_than_threshold_witness :
  isFresh (self liveWorld) (rowAt 101) = true
  /\ isFresh (self liveWorld) (rowAt 100) = false.
Proof.
  split.
  - apply (proj1 isFresh_iff_newer_than_threshold). reflexivity.
  - destruct (isFresh (self liveWorld) (rowAt 100)) eqn:E; [|reflexivity].
    apply (proj1 isFresh_iff_newer_than_threshold) in E.
    vm_compute in E. discriminate E.
Defined.

(** ** Scrolling *)

Lemma scrollEvent_paused (target : HTMLDivElement) (w : World) :
  invariant w -> isPaused (props (self w)) = true ->
  container_onScroll (painted w) = None /\ scrollEvent target w = (w, []).
Proof.
  intros [Hv _ _] Hp. unfold scrollEvent. rewrite Hv. simpl.
  by rewrite Hp.
Qed.

Lemma scrollEvent_live (target : HTMLDivElement) (w : World) :
  invariant w -> isPaused (props (self w)) = false ->
  container_onScroll (painted w) = Some this_onScroll
  /\ scrollEvent target w
       = ({| self := (onScroll target (self w)).1; painted := painted w |},
          (onScroll target (self w)).2).
Proof.
  intros [Hv _ _] Hp. unfold scrollEvent. rewrite Hv. simpl.
  rewrite Hp. split; [done|]. by destruct (onScroll target (self w)).
Qed.

(** C5. A scroll event while unpaused, at distance
    [scrollHeight - (scrollTop + clientHeight)] from the bottom: from 5
    pixels on, [onPause] is called and afterwards [lastScrollPos] holds
    that distance; below 5 nothing is called and [lastScrollPos] is what it
    was. While paused the painted container has no scroll listener, and a
    scroll event calls nothing and changes nothing. *)
Theorem onScroll_pauses_from_5_pixels (target : HTMLDivElement) :
  let distanceFromBottom :=
    scrollHeight target - (scrollTop target + clientHeight target) in
  (forall this : LiveLogs,
     isPaused (props this) = false ->
     (5 <= distanceFromBottom ->
      onScroll target this
        = (set_lastScrollPos (Some distanceFromBottom) this, [onPause])
      /\ (onScroll target this).2 = [onPause]
      /\ lastScrollPos (onScroll target this).1 = Some distanceFromBottom
      /\ props (onScroll target this).1 = props this
      /\ state (onScroll target this).1 = state this)
     /\ (distanceFromBottom < 5 ->
         onScroll target this = (this, [])
         /\ lastScrollPos (onScroll target this).1 = lastScrollPos this))
  /\ (forall w : World,
        reachable w -> isPaused (props (self w)) = false ->
        container_onScroll (painted w) = Some this_onScroll
        /\ scrollEvent target w
             = ({| self := (onScroll target (self w)).1;
                   painted := painted w |},
                (onScroll target (self w)).2)
        /\ (scrollEvent target w).2
             = (if 5 <=? distanceFromBottom then [onPause] else [])
        /\ lastScrollPos (self (scrollEvent target w).1)
             = (if 5 <=? distanceFromBottom then Some distanceFromBottom
                else lastScrollPos (self w)))
  /\ (forall this : LiveLogs,
        isPaused (props this) = true ->
        onScroll target this = (this, [])
        /\ exists v, render this = Done v /\ container_onScroll v = None)
  /\ (forall w : World,
        reachable w -> isPaused (props (self w)) = true ->
        container_onScroll (painted w) = None
        /\ scrollEvent target w = (w, [])).
Proof.
  intros d. split; [|split; [|split]].
  - intros this Hp. unfold onScroll. fold d. rewrite Hp. split; intros Hd.
    + by rewrite (proj2 (Z.leb_le 5 d)).
    + by rewrite (proj2 (Z.leb_gt 5 d)).
  - intros w Hw Hp.
    destruct (scrollEvent_live target w (reachable_invariant w Hw) Hp)
      as [Hlistener Hevent].
    split; [done|]. split; [done|]. rewrite Hevent.
    unfold onScroll. fold d. rewrite Hp.
    by destruct (5 <=? d).
  - intros this Hp. unfold onScroll. rewrite Hp, andb_false_r.
    split; [done|]. exists (viewOf this (shownRows this)).
    split; [apply render_shown|]. simpl. by rewrite Hp.
  - intros w Hw Hp. apply scrollEvent_paused; [|done].
    by apply reachable_invariant.
Qed.

(** The boundary: at 5 pixels from the bottom the live view asks for a pause
    and [lastScrollPos] becomes 5, at 4 pixels it calls nothing and
    [lastScrollPos] stays [null]. *)
Lemma onScroll_pauses_from_5_pixels_witness :
  ((scrollEvent (mkDiv 495 500 1000) liveWorld).2 = [onPause]
   /\ lastScrollPos (self (scrollEvent (mkDiv 495 500 1000) liveWorld).1)
        = Some 5)
  /\ ((scrollEvent (mkDiv 496 500 1000) liveWorld).2 = []
      /\ lastScrollPos (self (scrollEvent (mkDiv 496 500 1000) liveWorld).1)
           = None).
Proof.
  split.
  - pose proof (onScroll_pauses_from_5_pixels (mkDiv 495 500 1000)) as H.
    cbv zeta in H. destruct H as (_ & Hev & _).
    destruct (Hev liveWorld liveWorld_reachable eq_refl)
      as (_ & _ & Hcalls & Hpos).
    split; [exact Hcalls|exact Hpos].
  - pose proof (onScroll_pauses_from_5_pixels (mkDiv 496 500 1000)) as H.
    cbv zeta in H. destruct H as (_ & Hev & _).
    destruct (Hev liveWorld liveWorld_reachable eq_refl)
      as (_ & _ & Hcalls & Hpos).
    split; [exact Hcalls|exact Hpos].
Defined.

(** C4. At the update where [isPaused] goes from false to true: with a
    saved offset [d] the container is scrolled to
    [scrollHeight - (d + clientHeight)], taken from the container as it is
    after the paint, and the saved offset is cleared; without a saved
    offset the view scrolls to the bottom instead. Either way this is the
    only scroll call of the update, and the paused updates that follow
    scroll nothing. *)
Theorem pause_transition_restores_offset
  (w : World) (p : Props) (rc : bool) (dom : DOM) :
  reachable w ->
  isPaused (props (self w)) = false ->
  isPaused p = true ->
  exists w',
    update p rc dom w
      = Done (w',
              match lastScrollPos (self w) with
              | Some d =>
                  [scrollContainer_scrollTo 0
                     (scrollHeight (container dom)
                        - (d + clientHeight (container dom)))]
              | None => [liveEndDiv_scrollIntoView false]
              end)
    /\ lastScrollPos (self w') = None
    /\ forall p' rc' dom',
         isPaused p' = true ->
         exists w'', update p' rc' dom' w' = Done (w'', []).
Proof.
  intros Hw Hp0 Hp.
  destruct (reachable_invariant w Hw) as [_ _ Hd].
  rewrite update_eq.
  rewrite shouldComponentUpdate_isPaused_changed by (by rewrite Hp0, Hp).
  unfold committed. rewrite Hp0, Hp, (truthy_number_saved _ Hd). simpl.
  assert (Hnext : forall this v p' rc' dom',
             isPaused (props this) = true -> isPaused p' = true ->
             exists w'',
               update p' rc' dom' {| self := this; painted := v |}
                 = Done (w'', [])).
  { intros this v p' rc' dom' Hthis Hp'. rewrite update_eq.
    destruct (shouldComponentUpdate _ _ _ _ _); [|by eexists].
    unfold committed. simpl. rewrite Hthis, Hp'. simpl. by eexists. }
  destruct (lastScrollPos (self w)) as [d|]; simpl;
    eexists; (split; [reflexivity|]); (split; [reflexivity|]);
    intros p' rc' dom' Hp'; by apply Hnext.
Qed.

(** The round trip of the specification: the user scrolls to 50 pixels from
    the bottom of a container of height 1000 showing 500, the offset 50 is
    saved, and on the update into pause, with the content grown to 1200,
    the container is scrolled to 650. *)
Lemma pause_transition_restores_offset_witness :
  scrollEvent (mkDiv 450 500 1000) liveWorld
    = ({| self := set_lastScrollPos (Some 50) (self liveWorld);
          painted := painted liveWorld |}, [onPause])
  /\ exists w',
       update (pausedProps (Some (logsUpTo 200))) true (domOf 450 500 1200)
         {| self := set_lastScrollPos (Some 50) (self liveWorld);
            painted := painted liveWorld |}
         = Done (w', [scrollContainer_scrollTo 0 650])
       /\ lastScrollPos (self w') = None
       /\ forall p' rc' dom',
            isPaused p' = true ->
            exists w'', update p' rc' dom' w' = Done (w'', []).
Proof.
  split; [reflexivity|].
  apply (pause_transition_restores_offset
           {| self := set_lastScrollPos (Some 50) (self liveWorld);
              painted := painted liveWorld |}
           (pausedProps (Some (logsUpTo 200))) true (domOf 450 500 1200));
    [|reflexivity|reflexivity].
  eapply reach_scroll with (target := mkDiv 450 500 1000);
    [exact liveWorld_reachable|reflexivity].
Defined.

Lemma pausedWorld_reachable : reachable pausedWorld.
Proof.
  eapply reach_update
    with (nextProps := pausedProps (Some (logsUpTo 200))) (refsChanged := true)
         (dom := domOf 450 500 1200)
         (w := {| self := set_lastScrollPos (Some 50) (self liveWorld);
                  painted := painted liveWorld |}).
  - eapply reach_scroll with (target := mkDiv 450 500 1000);
      [exact liveWorld_reachable|reflexivity].
  - reflexivity.
Qed.

(** C7. The update that resumes ([isPaused] from true to false) scrolls the
    view to the end and makes no other call, whatever [lastScrollPos] holds;
    the painted container has the scroll listener again; in every reachable
    world the pending offset is [null] afterwards (it was consumed when the
    view entered the pause); unpaused updates that follow scroll to the end
    again whenever they paint. *)
Theorem resume_scrolls_to_end
  (w : World) (p : Props) (rc : bool) (dom : DOM) :
  isPaused (props (self w)) = true ->
  isPaused p = false ->
  exists w',
    update p rc dom w = Done (w', [liveEndDiv_scrollIntoView false])
    /\ container_onScroll (painted w') = Some this_onScroll
    /\ lastScrollPos (self w') = lastScrollPos (self w)
    /\ (reachable w -> lastScrollPos (self w') = None)
    /\ forall p' rc' dom',
         isPaused p' = false ->
         exists w'',
           update p' rc' dom' w'
             = Done (w'',
                     if shouldComponentUpdate rc' p p' (state (self w'))
                          (nextState p' (state (self w')))
                     then [liveEndDiv_scrollIntoView false] else []).
Proof.
  intros Hp0 Hp. rewrite update_eq.
  rewrite shouldComponentUpdate_isPaused_changed by (by rewrite Hp0, Hp).
  unfold committed. rewrite Hp0, Hp. simpl.
  eexists. split; [reflexivity|]. simpl. rewrite Hp.
  split; [done|]. split; [done|]. split.
  - intros Hw. by apply (inv_paused w (reachable_invariant w Hw)).
  - intros p' rc' dom' Hp'. rewrite update_eq. simpl.
    destruct (shouldComponentUpdate _ _ _ _ _); [|by eexists].
    unfold committed. simpl. rewrite Hp, Hp'. simpl. by eexists.
Qed.

(** Resuming after the scroll-triggered pause: one scroll to the end, the
    listener is back and no offset is pending. *)
Lemma resume_scrolls_to_end_witness :
  exists w',
    update (liveProps (Some (logsUpTo 300))) true (domOf 650 500 1200)
      pausedWorld
      = Done (w', [liveEndDiv_scrollIntoView false])
    /\ container_onScroll (painted w') = Some this_onScroll
    /\ lastScrollPos (self w') = None.
Proof.
  destruct (resume_scrolls_to_end pausedWorld
              (liveProps (Some (logsUpTo 300))) true (domOf 650 500 1200)
              eq_refl eq_refl)
    as (w' & Hu & Hl & _ & Hnone & _).
  exists w'. split; [exact Hu|]. split; [exact Hl|].
  exact (Hnone pausedWorld_reachable).
Defined.

(** ** Absent and empty results *)

Lemma noRows_snapshotRows (st : State) :
  noRows (logsResultToRender st) -> snapshotRows st = [].
Proof.
  unfold snapshotRows. by intros [->|(m & -> & ->)].
Qed.

Lemma noRows_shownRows (this : LiveLogs) :
  noRows (logsResultToRender (state this)) -> shownRows this = [].
Proof.
  intros Hno. unfold shownRows. rewrite (noRows_snapshotRows _ Hno).
  by destruct (isPaused (props this)).
Qed.

(** C8, as stated, fails: after a live mount on a result with two rows, an
    update that pauses and carries no [logsResult] paints the two frozen
    rows, not zero rows. *)
Lemma paused_update_without_logsResult_paints_frozen_rows :
  mount (liveProps (Some (logsUpTo 100))) (domOf 500 500 1000)
    = Done (liveWorld, [liveEndDiv_scrollIntoView false])
  /\ exists w',
       update (pausedProps None) true (domOf 500 500 1000) liveWorld
         = Done (w', [liveEndDiv_scrollIntoView false])
       /\ reachable w'
       /\ noRows (logsResult (props (self w')))
       /\ render (self w') = Done (painted w')
       /\ rowsToRender (self w') = Done [rowAt 99; rowAt 100]
       /\ length (rowViews (painted w')) = 2%nat.
Proof.
  split; [reflexivity|]. eexists. split; [reflexivity|]. split.
  - eapply reach_update
      with (nextProps := pausedProps None) (refsChanged := true)
           (dom := domOf 500 500 1000);
      [exact liveWorld_reachable|reflexivity].
  - split; [by left|]. by repeat split.
Qed.

(** C8, amended. Neither [rowsToRender], [render] nor
    [getDerivedStateFromProps] throws, whatever the result and the snapshot
    are. When the rendered snapshot is absent or has no row, zero rows are
    painted; this is the case at the first render and at every unpaused
    update whose [logsResult] is absent or empty. At a paused update the
    frozen snapshot is painted, whatever [logsResult] is. Deriving the
    threshold from an absent or empty previous snapshot gives 0. *)
Theorem absent_or_empty_snapshot_paints_no_rows :
  (forall this : LiveLogs,
     exists shown v, rowsToRender this = Done shown /\ render this = Done v)
  /\ (forall (p : Props) (st : State),
        exists r, getDerivedStateFromProps p st = Done r)
  /\ (forall this : LiveLogs,
        noRows (logsResultToRender (state this)) ->
        rowsToRender this = Done []
        /\ exists v, render this = Done v /\ rowViews v = [])
  /\ (forall (p : Props) (dom : DOM),
        noRows (logsResult p) ->
        exists w calls,
          mount p dom = Done (w, calls)
          /\ rowViews (painted w) = []
          /\ lastTimestamp (state (self w)) = 0)
  /\ (forall (w : World) (p : Props) (rc : bool) (dom : DOM),
        reachable w -> isPaused p = false -> noRows (logsResult p) ->
        exists w' calls,
          update p rc dom w = Done (w', calls)
          /\ rowViews (painted w') = [])
  /\ (forall (p : Props) (st : State),
        isPaused p = false -> noRows (logsResultToRender st) ->
        getDerivedStateFromProps p st
          = Done (Some {| logsResultToRender := logsResult p;
                          lastTimestamp := 0 |}))
  /\ (forall (w : World) (p : Props) (rc : bool) (dom : DOM),
        isPaused p = true ->
        exists w' calls,
          update p rc dom w = Done (w', calls)
          /\ state (self w') = state (self w)
          /\ rowsToRender (self w') = Done (snapshotRows (state (self w)))
          /\ (reachable w ->
              render (self w') = Done (painted w')
              /\ rowViews (painted w')
                   = imap (renderRow (self w')
                             (bool_decide (timeZone p = "utc")))
                       (snapshotRows (state (self w)))
              /\ length (rowViews (painted w'))
                   = length (snapshotRows (state (self w))))).
Proof.
  assert (Hzero : forall st, noRows (logsResultToRender st) ->
                             lastRowTime st = 0).
  { intros st Hno. unfold lastRowTime. by rewrite noRows_snapshotRows. }
  split; [|split; [|split; [|split; [|split; [|split]]]]].
  - intros this. exists (shownRows this), (viewOf this (shownRows this)).
    split; [apply rowsToRender_eq|apply render_shown].
  - intros p st. destruct (isPaused p) eqn:Hp.
    + eexists. by apply getDerivedStateFromProps_paused.
    + eexists. by apply getDerivedStateFromProps_live.
  - intros this Hno. pose proof (noRows_shownRows this Hno) as Hshown.
    split.
    + rewrite rowsToRender_eq. by f_equal.
    + exists (viewOf this (shownRows this)).
      split; [apply render_shown|]. simpl. by rewrite Hshown.
  - intros p dom Hno. rewrite mount_eq. simpl. do 2 eexists.
    split; [reflexivity|]. simpl.
    assert (Hst : noRows (logsResultToRender
                            (nextState p {| logsResultToRender := logsResult p;
                                            lastTimestamp := 0 |}))).
    { unfold nextState. by destruct (isPaused p). }
    split.
    + rewrite noRows_shownRows; done.
    + unfold nextState. destruct (isPaused p); simpl; [done|].
      by apply Hzero.
  - intros w p rc dom Hw Hp Hno.
    destruct (update_total p rc dom w) as (w' & calls & Hu).
    exists w', calls. split; [done|].
    destruct (update_state _ _ _ _ _ _ Hu) as [_ Hst].
    pose proof (invariant_update _ _ _ _ _ _ Hu (reachable_invariant w Hw))
      as [Hv _ _].
    rewrite Hv. simpl. rewrite noRows_shownRows; [done|].
    rewrite Hst. unfold nextState. by rewrite Hp.
  - intros p st Hp Hno. rewrite getDerivedStateFromProps_live by done.
    by rewrite Hzero.
  - intros w p rc dom Hp.
    destruct (update_total p rc dom w) as (w' & calls & Hu).
    destruct (update_state _ _ _ _ _ _ Hu) as [Hprops Hst].
    unfold nextState in Hst. rewrite Hp in Hst.
    assert (Hshown : shownRows (self w') = snapshotRows (state (self w))).
    { unfold shownRows. by rewrite Hprops, Hp, Hst. }
    exists w', calls. split; [done|]. split; [done|].
    split; [by rewrite rowsToRender_eq; fold (shownRows (self w')); f_equal|].
    intros Hw.
    pose proof (invariant_update _ _ _ _ _ _ Hu (reachable_invariant w Hw))
      as [Hv _ _].
    assert (Hrows : rowViews (painted w')
                    = imap (renderRow (self w')
                              (bool_decide (timeZone p = "utc")))
                        (snapshotRows (state (self w)))).
    { rewrite Hv. simpl. by rewrite Hshown, Hprops. }
    split; [by rewrite render_shown, Hv|]. split; [done|].
    by rewrite Hrows, length_imap.
Qed.

(** Mounting without a result paints no row and leaves the threshold at 0;
    pausing the live view of t=99, 100 with an update that carries no
    result keeps both rows painted. *)
Lemma absent_or_empty_snapshot_paints_no_rows_witness :
  (exists w calls,
     mount (liveProps None) (domOf 0 500 500) = Done (w, calls)
     /\ rowViews (painted w) = []
     /\ lastTimestamp (state (self w)) = 0)
  /\ (exists w' calls,
        update (pausedProps None) true (domOf 500 500 1000) liveWorld
          = Done (w', calls)
        /\ rowsToRender (self w') = Done [rowAt 99; rowAt 100]
        /\ length (rowViews (painted w')) = 2%nat).
Proof.
  split.
  - apply (proj1 (proj2 (proj2 (proj2
             absent_or_empty_snapshot_paints_no_rows)))
             (liveProps None) (domOf 0 500 500)).
    left. reflexivity.
  - destruct (proj2 (proj2 (proj2 (proj2 (proj2 (proj2
                absent_or_empty_snapshot_paints_no_rows)))))
                liveWorld (pausedProps None) true (domOf 500 500 1000)
                eq_refl)
      as (w' & calls & Hu & _ & Hshown & Hpainted).
    destruct (Hpainted liveWorld_reachable) as (_ & _ & Hlen).
    exists w', calls. split; [exact Hu|]. split; [exact Hshown|exact Hlen].
Defined.

(** ** Timestamp cells *)

(** C9. Every painted row has exactly one timestamp cell. With [timeZone]
    equal to ['utc'] its text is the row's UTC time and its tooltip is
    ["Local: " + timeLocal + " (" + timeFromNow + ")"]; with any other
    [timeZone] its text is the row's local time and its tooltip is
    [timeUtc + " (" + timeFromNow + ")"]. *)
Theorem timestamp_cell_follows_timeZone
  (this : LiveLogs) (v : View) (index : nat) (rv : RowView) :
  render this = Done v ->
  rowViews v !! index = Some rv ->
  exists shown row,
    rowsToRender this = Done shown
    /\ shown !! index = Some row
    /\ message rv = entry row
    /\ (timeZone (props this) = "utc" ->
        timeCells rv =
          [ {| title :=
                 "Local: " +:+ timeLocal row +:+ " (" +:+ timeFromNow row
                   +:+ ")";
               text := timeUtc row |} ])
    /\ (timeZone (props this) <> "utc" ->
        timeCells rv =
          [ {| title := timeUtc row +:+ " (" +:+ timeFromNow row +:+ ")";
               text := timeLocal row |} ]).
Proof.
  rewrite render_shown. intros [= <-]. simpl.
  rewrite list_lookup_imap. intros Hrv.
  destruct (shownRows this !! index) as [row|] eqn:Hrow; [|done].
  injection Hrv as <-.
  exists (shownRows this), row. split; [apply rowsToRender_eq|].
  split; [done|]. split; [done|]. split; intros Htz; simpl.
  - by rewrite bool_decide_eq_true_2.
  - by rewrite bool_decide_eq_false_2.
Qed.

(** The last row of the live view in a browser time zone: local time as
    text, UTC time and relative time in the tooltip. *)
Lemma timestamp_cell_follows_timeZone_witness :
  exists shown row,
    rowsToRender (self liveWorld) = Done shown
    /\ shown !! 1%nat = Some row
    /\ message (renderRow (self liveWorld) false 1 (rowAt 100)) = entry row
    /\ (timeZone (props (self liveWorld)) = "utc" ->
        timeCells (renderRow (self liveWorld) false 1 (rowAt 100)) =
          [ {| title :=
                 "Local: " +:+ timeLocal row +:+ " (" +:+ timeFromNow row
                   +:+ ")";
               text := timeUtc row |} ])
    /\ (timeZone (props (self liveWorld)) <> "utc" ->
        timeCells (renderRow (self liveWorld) false 1 (rowAt 100)) =
          [ {| title := timeUtc row +:+ " (" +:+ timeFromNow row +:+ ")";
               text := timeLocal row |} ]).
Proof.
  apply (timestamp_cell_follows_timeZone (self liveWorld)
           (painted liveWorld) 1
           (renderRow (self liveWorld) false 1 (rowAt 100)));
    reflexivity.
Defined.

(** ** The elapsed-time indicator *)

(** C10. The "Last line received" indicator is painted exactly when
    [isPaused] is false; while paused it is absent, whatever results have
    been received. When painted, its [resetKey] is the current
    [logsResult]. *)
Theorem lastLineReceived_painted_iff_live (this : LiveLogs) :
  exists v,
    render this = Done v
    /\ lastLineReceived v
         = (if isPaused (props this) then None
            else Some {| resetKey := logsResult (props this);
                         humanize := true |})
    /\ (lastLineReceived v = None <-> isPaused (props this) = true)
    /\ (is_Some (lastLineReceived v) <-> isPaused (props this) = false).
Proof.
  exists (viewOf this (shownRows this)). split; [apply render_shown|].
  simpl. destruct (isPaused (props this)); simpl.
  - split; [done|]. split; [done|]. split; [by intros [x Hx]|done].
  - split; [done|]. split; [done|]. split; [done|]. intros _. by eexists.
Qed.

(** * Further properties of the component *)

(** ** Which rows are highlighted *)

Lemma lastRowTime_bounds_sorted (st : State) (r : LogRowModel) :
  nonDecreasing (snapshotRows st) -> r ∈ snapshotRows st ->
  timeEpochMs r <= lastRowTime st.
Proof.
  intros Hsorted [i Hi]%list_elem_of_lookup. unfold lastRowTime.
  pose proof (lookup_lt_Some _ _ _ Hi) as Hlt.
  rewrite last_lookup.
  destruct (snapshotRows st !! Nat.pred (length (snapshotRows st)))
    as [rl|] eqn:Hl.
  - apply (Hsorted i (Nat.pred (length (snapshotRows st))) r rl);
      [lia|done|done].
  - apply lookup_ge_None in Hl. lia.
Qed.

Lemma fmap_constant {A B : Type} (f : A -> B) (c : B) (l : list A) :
  Forall (fun a => f a = c) l -> f <$> l = replicate (length l) c.
Proof.
  induction 1 as [|a l Ha _ IH]; csimpl; [done|]. by rewrite Ha, IH.
Qed.

Lemma className_rowViews (this : LiveLogs) (rs : list LogRowModel) :
  className <$> rowViews (viewOf this rs)
    = (fun row => if isFresh this row then logsRowFresh else logsRowOld)
        <$> rs.
Proof.
  simpl. rewrite fmap_imap.
  by rewrite <- (imap_const
    (fun row => if isFresh this row then logsRowFresh else logsRowOld)).
Qed.

Lemma appended_rows_styles (this : LiveLogs) (m : LogsModel)
  (old added : list LogRowModel) :
  isPaused (props this) = false ->
  logsResultToRender (state this) = Some m ->
  rows m = old ++ added ->
  Forall (fun r => timeEpochMs r <= lastTimestamp (state this)) old ->
  Forall (fun r => lastTimestamp (state this) < timeEpochMs r) added ->
  className <$> rowViews (viewOf this (shownRows this))
    = drop (length (rows m) - 100)
        (replicate (length old) logsRowOld
           ++ replicate (length added) logsRowFresh).
Proof.
  intros Hp Hm Hrows Hold Hadded.
  rewrite className_rowViews. unfold shownRows, snapshotRows.
  rewrite Hp, Hm, fmap_drop, Hrows, fmap_app. f_equal. f_equal.
  - apply fmap_constant. eapply Forall_impl; [exact Hold|].
    intros r Hr. unfold isFresh. by rewrite (proj2 (Z.ltb_ge _ _) Hr).
  - apply fmap_constant. eapply Forall_impl; [exact Hadded|].
    intros r Hr. unfold isFresh. by rewrite (proj2 (Z.ltb_lt _ _) Hr).
Qed.

(** X1. An unpaused update whose result is the previous snapshot (in
    non-decreasing time order) followed by rows newer than its last row
    highlights exactly the appended rows: the painted styles are the last
    100 of "old" for every previous row and "fresh" for every appended one.
    With nothing appended, no row is highlighted. *)
Theorem live_update_highlights_appended_rows
  (w : World) (p : Props) (rc : bool) (dom : DOM) (m : LogsModel)
  (added : list LogRowModel) :
  isPaused p = false ->
  nonDecreasing (snapshotRows (state (self w))) ->
  logsResult p = Some m ->
  rows m = snapshotRows (state (self w)) ++ added ->
  Forall (fun r => lastRowTime (state (self w)) < timeEpochMs r) added ->
  exists w' calls v,
    update p rc dom w = Done (w', calls)
    /\ render (self w') = Done v
    /\ className <$> rowViews v
         = drop (length (rows m) - 100)
             (replicate (length (snapshotRows (state (self w)))) logsRowOld
                ++ replicate (length added) logsRowFresh).
Proof.
  intros Hp Hsorted Hm Hrows Hadded.
  destruct (update_total p rc dom w) as (w' & calls & Hu).
  destruct (update_state _ _ _ _ _ _ Hu) as [Hprops Hst].
  unfold nextState in Hst. rewrite Hp in Hst.
  exists w', calls, (viewOf (self w') (shownRows (self w'))).
  split; [done|]. split; [apply render_shown|].
  apply (appended_rows_styles (self w') m _ added);
    rewrite ?Hprops, ?Hst; cbn [logsResultToRender lastTimestamp];
    try done.
  apply Forall_forall. intros r Hr.
  by apply lastRowTime_bounds_sorted.
Qed.

(** The live view of t=99, 100 receives the same rows plus one at t=150:
    old, old, fresh. *)
Lemma live_update_highlights_appended_rows_witness :
  exists w' calls v,
    update (liveProps (Some {| rows := [rowAt 99; rowAt 100; rowAt 150] |}))
      true (domOf 500 500 1000) liveWorld = Done (w', calls)
    /\ render (self w') = Done v
    /\ className <$> rowViews v = [logsRowOld; logsRowOld; logsRowFresh].
Proof.
  apply (live_update_highlights_appended_rows liveWorld
           (liveProps (Some {| rows := [rowAt 99; rowAt 100; rowAt 150] |}))
           true (domOf 500 500 1000)
           {| rows := [rowAt 99; rowAt 100; rowAt 150] |} [rowAt 150]);
    try reflexivity.
  - intros i j ri rj Hij Hi Hj.
    destruct i as [|[|i]], j as [|[|j]]; simpl in Hi, Hj;
      try discriminate Hi; try discriminate Hj; try lia;
      injection Hi as <-; injection Hj as <-; simpl; lia.
  - repeat constructor.
Defined.

(** X2. The first render of a live view highlights nothing when the rows
    are in non-decreasing time order: the constructor seeds the snapshot
    from the props and [getDerivedStateFromProps] then takes the threshold
    from that same snapshot. Mounted paused, the threshold stays 0 and the
    whole snapshot is painted, each row fresh exactly when its timestamp
    is positive. *)
Theorem first_render_highlights (p : Props) (dom : DOM) :
  exists w calls,
    mount p dom = Done (w, calls)
    /\ (isPaused p = false ->
        lastTimestamp (state (self w)) = lastRowTime (state (constructor p))
        /\ (nonDecreasing (snapshotRows (state (constructor p))) ->
            Forall (fun rv => className rv = logsRowOld)
              (rowViews (painted w))))
    /\ (isPaused p = true ->
        lastTimestamp (state (self w)) = 0
        /\ className <$> rowViews (painted w)
             = (fun r => if 0 <? timeEpochMs r then logsRowFresh
                         else logsRowOld)
                 <$> snapshotRows (state (constructor p))).
Proof.
  rewrite mount_eq. cbv zeta. do 2 eexists. split; [reflexivity|].
  cbn [painted self]. split; intros Hp.
  - split; [unfold nextState; cbn [state]; by rewrite Hp|].
    intros Hrows. rewrite Forall_forall. intros rv Hrv.
    assert (Hin : className rv
                  ∈ className <$> rowViews
                      (viewOf
                         (mkLiveLogs p
                            (nextState p
                               {| logsResultToRender := logsResult p;
                                  lastTimestamp := 0 |})
                            (Some (endDiv dom)) (Some (container dom)) None)
                         (shownRows
                            (mkLiveLogs p
                               (nextState p
                                  {| logsResultToRender := logsResult p;
                                     lastTimestamp := 0 |})
                               (Some (endDiv dom)) (Some (container dom))
                               None))))
      by by apply list_elem_of_fmap_2.
    rewrite className_rowViews in Hin.
    apply list_elem_of_fmap in Hin as (r & -> & Hr).
    revert Hr. unfold shownRows, nextState. cbn [props state].
    rewrite !Hp. cbn [props state]. intros Hr%subseteq_drop.
    pose proof (lastRowTime_bounds_sorted _ r Hrows Hr) as Hle.
    unfold isFresh. cbn [state lastTimestamp].
    replace (_ <? _) with false; [done|].
    symmetry. apply Z.ltb_ge. exact Hle.
  - split; [unfold nextState; cbn [state]; by rewrite Hp|].
    rewrite className_rowViews. unfold shownRows, nextState.
    cbn [props state]. rewrite !Hp. cbn [props state].
    apply list_fmap_ext. intros _ r _. unfold isFresh.
    cbn [state lastTimestamp]. done.
Qed.

(** Mounted live on t=99, 100: both rows are painted old, with the
    threshold at 100. Mounted paused on t=0, 5: the threshold is 0, the row
    at 0 is painted old and the row at 5 fresh. *)
Lemma first_render_highlights_witness :
  (exists w calls,
     mount (liveProps (Some (logsUpTo 100))) (domOf 500 500 1000)
       = Done (w, calls)
     /\ lastTimestamp (state (self w)) = 100
     /\ Forall (fun rv => className rv = logsRowOld) (rowViews (painted w)))
  /\ (exists w calls,
        mount (pausedProps (Some {| rows := [rowAt 0; rowAt 5] |}))
          (domOf 500 500 1000) = Done (w, calls)
        /\ lastTimestamp (state (self w)) = 0
        /\ className <$> rowViews (painted w) = [logsRowOld; logsRowFresh]).
Proof.
  split.
  - destruct (first_render_highlights (liveProps (Some (logsUpTo 100)))
                (domOf 500 500 1000)) as (w & calls & Hm & Hlive & _).
    destruct (Hlive eq_refl) as [Hts Hold].
    exists w, calls. split; [exact Hm|]. split; [exact Hts|].
    apply Hold. intros i j ri rj Hij Hi Hj.
    destruct i as [|[|i]], j as [|[|j]]; simpl in Hi, Hj;
      try discriminate Hi; try discriminate Hj; try lia;
      injection Hi as <-; injection Hj as <-; simpl; lia.
  - destruct (first_render_highlights
                (pausedProps (Some {| rows := [rowAt 0; rowAt 5] |}))
                (domOf 500 500 1000)) as (w & calls & Hm & _ & Hpaused).
    destruct (Hpaused eq_refl) as [Hts Hstyles].
    exists w, calls. split; [exact Hm|]. split; [exact Hts|exact Hstyles].
Defined.

(** ** The pending scroll offset *)

(** X3. In every reachable world no scroll offset is pending while the view
    is paused, and a pending offset is at least 5; so the truthiness test
    on [lastScrollPos] in [componentDidUpdate] never takes a saved offset
    for a missing one. *)
Theorem pending_offset_invariant (w : World) :
  reachable w ->
  (isPaused (props (self w)) = true -> lastScrollPos (self w) = None)
  /\ (forall d, lastScrollPos (self w) = Some d -> 5 <= d)
  /\ truthy_number (lastScrollPos (self w)) = truthy (lastScrollPos (self w)).
Proof.
  intros Hw. destruct (reachable_invariant w Hw) as [_ Hp Hd].
  split; [done|]. split; [done|]. by apply truthy_number_saved.
Qed.

Lemma pending_offset_invariant_witness :
  (isPaused (props (self pausedWorld)) = true ->
   lastScrollPos (self pausedWorld) = None)
  /\ (forall d, lastScrollPos (self pausedWorld) = Some d -> 5 <= d)
  /\ truthy_number (lastScrollPos (self pausedWorld))
       = truthy (lastScrollPos (self pausedWorld)).
Proof.
  apply (pending_offset_invariant pausedWorld). exact pausedWorld_reachable.
Defined.

Lemma run_live (es : list Event) (w : World) :
  invariant w -> isPaused (props (self w)) = false ->
  Forall keepsLive es ->
  exists w' calls,
    run es w = Done (w', calls)
    /\ invariant w'
    /\ isPaused (props (self w')) = false
    /\ lastScrollPos (self w') = latestScrollAway es (lastScrollPos (self w)).
Proof.
  intros Hinv Hp Hes. revert w Hinv Hp.
  induction Hes as [|e es He _ IH]; intros w Hinv Hp.
  - by exists w, [].
  - destruct e as [p rc dom|target]; simpl in He; cbn [run].
    + destruct (update_total p rc dom w) as (w1 & calls1 & Hu).
      pose proof (invariant_update _ _ _ _ _ _ Hu Hinv) as Hinv1.
      destruct (update_state _ _ _ _ _ _ Hu) as [Hprops _].
      assert (Hpos : lastScrollPos (self w1) = lastScrollPos (self w)).
      { revert Hu. rewrite update_eq. intros [= Hu].
        destruct (shouldComponentUpdate _ _ _ _ _).
        - unfold committed in Hu. rewrite He, andb_false_r in Hu.
          by inversion Hu.
        - by inversion Hu. }
      destruct (IH w1 Hinv1) as (w' & calls & Hrun & Hinv' & Hp' & Hpos').
      { by rewrite Hprops. }
      exists w', (calls1 ++ calls). rewrite Hu. cbn [mbind js_bind].
      rewrite Hrun. cbn [mbind js_bind].
      split; [done|]. split; [done|]. split; [done|].
      by rewrite Hpos', Hpos.
    + destruct (scrollEvent target w) as [w1 calls1] eqn:Hs.
      pose proof (invariant_scrollEvent _ _ _ _ Hs Hinv) as Hinv1.
      destruct (scrollEvent_live target w Hinv Hp) as [_ Heq].
      rewrite Hs in Heq. injection Heq as Hw1 Hc1.
      assert (Hw1p : isPaused (props (self w1)) = false
                     /\ lastScrollPos (self w1)
                        = if 5 <=? distanceFromBottom target
                          then Some (distanceFromBottom target)
                          else lastScrollPos (self w)).
      { rewrite Hw1. unfold onScroll, distanceFromBottom. rewrite Hp.
        by destruct (5 <=? _). }
      destruct Hw1p as [Hp1 Hpos].
      destruct (IH w1 Hinv1 Hp1) as (w' & calls & Hrun & Hinv' & Hp' & Hpos').
      exists w', (calls1 ++ calls). rewrite Hrun. cbn [mbind js_bind].
      split; [done|]. split; [done|]. split; [done|].
      by rewrite Hpos', Hpos.
Qed.

(** X4. While the view stays live, over any trace of unpaused updates and
    scroll events, the pending offset is the distance of the most recent
    scroll event that was at least 5 pixels from the bottom: live updates
    and scroll events nearer to the bottom neither clear nor change it. At
    the update that then pauses the view, that distance is restored against
    the container as it is then; with no such event, the view scrolls to
    the bottom. *)
Theorem pause_restores_latest_scroll_away
  (w : World) (es : list Event) (p : Props) (rc : bool) (dom : DOM) :
  reachable w ->
  isPaused (props (self w)) = false ->
  Forall keepsLive es ->
  isPaused p = true ->
  exists w1 calls1 w2,
    run es w = Done (w1, calls1)
    /\ lastScrollPos (self w1) = latestScrollAway es (lastScrollPos (self w))
    /\ update p rc dom w1
         = Done (w2,
                 match latestScrollAway es (lastScrollPos (self w)) with
                 | Some d =>
                     [scrollContainer_scrollTo 0
                        (scrollHeight (container dom)
                           - (d + clientHeight (container dom)))]
                 | None => [liveEndDiv_scrollIntoView false]
                 end)
    /\ lastScrollPos (self w2) = None.
Proof.
  intros Hw Hp0 Hes Hp.
  destruct (run_live es w (reachable_invariant w Hw) Hp0 Hes)
    as (w1 & calls1 & Hrun & [_ _ Hd] & Hp1 & Hpos).
  exists w1, calls1. rewrite update_eq.
  rewrite shouldComponentUpdate_isPaused_changed by (by rewrite Hp1, Hp).
  unfold committed. rewrite Hp1, Hp, (truthy_number_saved _ Hd). simpl.
  rewrite <- Hpos.
  destruct (lastScrollPos (self w1)) as [d|]; simpl; by eexists.
Qed.

(** The user scrolls 50 pixels up, a live update arrives before the parent
    pauses, the user scrolls back to 2 pixels from the bottom; the pause
    still restores the 50 pixels. *)
Lemma pause_restores_latest_scroll_away_witness :
  exists w1 calls1 w2,
    run [ Scroll (mkDiv 450 500 1000);
          Update (liveProps (Some (logsUpTo 200))) true (domOf 450 500 1100);
          Scroll (mkDiv 598 500 1100) ] liveWorld
      = Done (w1, calls1)
    /\ lastScrollPos (self w1) = Some 50
    /\ update (pausedProps (Some (logsUpTo 200))) true (domOf 598 500 1200) w1
         = Done (w2, [scrollContainer_scrollTo 0 650])
    /\ lastScrollPos (self w2) = None.
Proof.
  apply (pause_restores_latest_scroll_away liveWorld
           [ Scroll (mkDiv 450 500 1000);
             Update (liveProps (Some (logsUpTo 200))) true
               (domOf 450 500 1100);
             Scroll (mkDiv 598 500 1100) ]
           (pausedProps (Some (logsUpTo 200))) true (domOf 598 500 1200)).
  - exact liveWorld_reachable.
  - reflexivity.
  - repeat constructor.
  - reflexivity.
Defined.

(** ** The calls a view makes *)

Lemma update_calls (p : Props) (rc : bool) (dom : DOM) (w w' : World) calls :
  update p rc dom w = Done (w', calls) ->
  onPauseCalls calls = 0%nat
  /\ (length calls <= 1)%nat
  /\ (isPaused p = false ->
      calls = if shouldComponentUpdate rc (props (self w)) p (state (self w))
                   (nextState p (state (self w)))
              then [liveEndDiv_scrollIntoView false] else [])
  /\ (isPaused (props (self w)) = true -> isPaused p = true -> calls = []).
Proof.
  rewrite update_eq. intros [= Heq].
  destruct (shouldComponentUpdate _ _ _ _ _).
  - unfold committed in Heq.
    destruct (isPaused (props (self w))), (isPaused p);
      [| | destruct (truthy_number (lastScrollPos (self w)))|];
      simpl in Heq; inversion Heq; subst;
      repeat split; try done; simpl; lia.
  - inversion Heq; subst. repeat split; try done; simpl; lia.
Qed.

(** X5. A commit never calls [onPause] and makes at most one scroll call.
    While live, every update that paints scrolls to the end exactly once
    and an update React skips scrolls nothing; an update from paused to
    paused makes no call at all. A live mount scrolls to the end once, a
    paused mount makes no call. *)
Theorem commit_scroll_calls :
  (forall (p : Props) (rc : bool) (dom : DOM) (w : World),
     exists w' calls,
       update p rc dom w = Done (w', calls)
       /\ onPauseCalls calls = 0%nat
       /\ (length calls <= 1)%nat
       /\ (isPaused p = false ->
           calls = if shouldComponentUpdate rc (props (self w)) p
                        (state (self w)) (nextState p (state (self w)))
                   then [liveEndDiv_scrollIntoView false] else [])
       /\ (isPaused (props (self w)) = true -> isPaused p = true ->
           calls = []))
  /\ (forall (p : Props) (dom : DOM),
        exists w,
          mount p dom
            = Done (w, if isPaused p then []
                       else [liveEndDiv_scrollIntoView false])).
Proof.
  split.
  - intros p rc dom w.
    destruct (update_total p rc dom w) as (w' & calls & Hu).
    exists w', calls. split; [done|]. by eapply update_calls.
  - intros p dom. rewrite mount_eq. by eexists.
Qed.

(** A live update with new data scrolls to the end once; a second paused
    update does nothing. *)
Lemma commit_scroll_calls_witness :
  (exists w',
     update (liveProps (Some (logsUpTo 200))) false (domOf 500 500 1000)
       liveWorld = Done (w', [liveEndDiv_scrollIntoView false]))
  /\ (exists w',
        update (pausedProps None) true (domOf 500 500 1000) pausedWorld
          = Done (w', [])).
Proof.
  split.
  - destruct (proj1 commit_scroll_calls
                (liveProps (Some (logsUpTo 200))) false (domOf 500 500 1000)
                liveWorld) as (w' & calls & Hu & _ & _ & Hlive & _).
    exists w'. rewrite Hu. rewrite (Hlive eq_refl). reflexivity.
  - destruct (proj1 commit_scroll_calls
                (pausedProps None) true (domOf 500 500 1000)
                pausedWorld) as (w' & calls & Hu & _ & _ & _ & Hpaused).
    exists w'. rewrite Hu. rewrite (Hpaused eq_refl eq_refl). reflexivity.
Defined.

Lemma onPauseCalls_app (c1 c2 : list Call) :
  onPauseCalls (c1 ++ c2) = (onPauseCalls c1 + onPauseCalls c2)%nat.
Proof. unfold onPauseCalls. by rewrite filter_app, length_app. Qed.

(** X6. Over any trace of unpaused updates and scroll events on a live
    view, the number of [onPause] calls is the number of scroll events that
    are at least 5 pixels from the bottom: no commit and no scroll event
    nearer to the bottom calls it, and every scroll event further away
    calls it again as long as the parent has not paused. (Clicks on the
    Pause button are not events of these traces.) *)
Theorem onPause_called_once_per_scroll_away (w : World) (es : list Event) :
  reachable w ->
  isPaused (props (self w)) = false ->
  Forall keepsLive es ->
  exists w' calls,
    run es w = Done (w', calls)
    /\ onPauseCalls calls
         = length (filter (fun e => scrollsAway e = true) es).
Proof.
  intros Hw Hp Hes. pose proof (reachable_invariant w Hw) as Hinv.
  clear Hw. revert w Hinv Hp.
  induction Hes as [|e es He _ IH]; intros w Hinv Hp.
  - by exists w, [].
  - destruct e as [p rc dom|target]; simpl in He; cbn [run].
    + destruct (update_total p rc dom w) as (w1 & calls1 & Hu).
      pose proof (invariant_update _ _ _ _ _ _ Hu Hinv) as Hinv1.
      destruct (update_state _ _ _ _ _ _ Hu) as [Hprops _].
      destruct (update_calls _ _ _ _ _ _ Hu) as [Hnone _].
      destruct (IH w1 Hinv1) as (w' & calls & Hrun & Hcount).
      { by rewrite Hprops. }
      exists w', (calls1 ++ calls). rewrite Hu. cbn [mbind js_bind].
      rewrite Hrun. cbn [mbind js_bind]. split; [done|].
      rewrite onPauseCalls_app, Hnone, Hcount.
      by rewrite filter_cons_False by done.
    + destruct (scrollEvent target w) as [w1 calls1] eqn:Hs.
      pose proof (invariant_scrollEvent _ _ _ _ Hs Hinv) as Hinv1.
      destruct (scrollEvent_live target w Hinv Hp) as [_ Heq].
      rewrite Hs in Heq. injection Heq as Hw1 Hc1.
      assert (Hfacts : isPaused (props (self w1)) = false
                       /\ calls1 = if 5 <=? distanceFromBottom target
                                   then [onPause] else []).
      { rewrite Hw1, Hc1. unfold onScroll, distanceFromBottom. rewrite Hp.
        by destruct (5 <=? _). }
      destruct Hfacts as [Hp1 Hcalls1].
      destruct (IH w1 Hinv1 Hp1) as (w' & calls & Hrun & Hcount).
      exists w', (calls1 ++ calls). rewrite Hrun. cbn [mbind js_bind].
      split; [done|]. rewrite onPauseCalls_app, Hcount, Hcalls1.
      destruct (5 <=? distanceFromBottom target) eqn:Hfar.
      * by rewrite filter_cons_True by done.
      * rewrite filter_cons_False; [done|]. simpl. by rewrite Hfar.
Qed.

(** Two scroll events far from the bottom and one near it, with a live
    update in between: two calls of [onPause]. *)
Lemma onPause_called_once_per_scroll_away_witness :
  exists w' calls,
    run [ Scroll (mkDiv 450 500 1000);
          Update (liveProps (Some (logsUpTo 200))) true (domOf 450 500 1100);
          Scroll (mkDiv 598 500 1100);
          Scroll (mkDiv 300 500 1100) ] liveWorld
      = Done (w', calls)
    /\ onPauseCalls calls = 2%nat.
Proof.
  apply (onPause_called_once_per_scroll_away liveWorld
           [ Scroll (mkDiv 450 500 1000);
             Update (liveProps (Some (logsUpTo 200))) true
               (domOf 450 500 1100);
             Scroll (mkDiv 598 500 1100);
             Scroll (mkDiv 300 500 1100) ]).
  - exact liveWorld_reachable.
  - reflexivity.
  - repeat constructor.
Defined.

(** ** Errors *)

(** X7. [componentDidUpdate] guards the end element but not the container:
    entering the pause with a saved offset and no container element throws
    a [TypeError], while entering it without an offset and without an end
    element makes no call, and on any other update nothing is read. Under
    the React lifecycle both elements are attached before it runs, so
    neither an update nor a mount ever throws. *)
Theorem componentDidUpdate_reads_the_container :
  (forall (prevProps : Props) (this : LiveLogs),
     isPaused prevProps = false -> isPaused (props this) = true ->
     truthy_number (lastScrollPos this) = true ->
     scrollContainerRef this = None ->
     componentDidUpdate prevProps this = Throws TypeError)
  /\ (forall (prevProps : Props) (this : LiveLogs),
        isPaused prevProps = false -> isPaused (props this) = true ->
        truthy_number (lastScrollPos this) = false ->
        liveEndDiv this = None ->
        componentDidUpdate prevProps this = Done (this, []))
  /\ (forall (prevProps : Props) (this : LiveLogs),
        isPaused prevProps = true \/ isPaused (props this) = false ->
        componentDidUpdate prevProps this = Done (this, []))
  /\ (forall (p : Props) (rc : bool) (dom : DOM) (w : World),
        exists w' calls, update p rc dom w = Done (w', calls))
  /\ (forall (p : Props) (dom : DOM),
        exists w calls, mount p dom = Done (w, calls)).
Proof.
  split; [|split; [|split; [|split]]].
  - intros prevProps this Hp0 Hp Hpos Href. unfold componentDidUpdate.
    by rewrite Hp0, Hp, Hpos, Href.
  - intros prevProps this Hp0 Hp Hpos Hend. unfold componentDidUpdate.
    by rewrite Hp0, Hp, Hpos, Hend.
  - intros prevProps this [Hp0|Hp]; unfold componentDidUpdate.
    + by rewrite Hp0.
    + by rewrite Hp, andb_false_r.
  - apply update_total.
  - intros p dom. rewrite mount_eq. by do 2 eexists.
Qed.

(** An instance that was never attached to the DOM, with 50 pixels saved:
    entering the pause throws. *)
Lemma componentDidUpdate_reads_the_container_witness :
  componentDidUpdate (liveProps None)
    (set_lastScrollPos (Some 50) (constructor (pausedProps None)))
    = Throws TypeError.
Proof.
  apply (proj1 componentDidUpdate_reads_the_container); reflexivity.
Defined.

(** ** The screen follows props and state *)

(** X8. [render] reads [props] and [state] only, never [liveEndDiv],
    [scrollContainerRef] or [lastScrollPos]; hence in every reachable world,
    also after scroll events and after updates that React skipped, the view
    on screen is what [render] returns for the current instance. *)
Theorem painted_view_is_current :
  (forall (this : LiveLogs) (el ref : option HTMLDivElement)
     (pos : option Z),
     render (mkLiveLogs (props this) (state this) el ref pos) = render this)
  /\ (forall w : World, reachable w -> render (self w) = Done (painted w)).
Proof.
  split.
  - intros this el ref pos. by rewrite !render_eq.
  - intros w Hw. destruct (reachable_invariant w Hw) as [Hv _ _].
    by rewrite render_shown, Hv.
Qed.

Lemma painted_view_is_current_witness :
  render (self pausedWorld) = Done (painted pausedWorld).
Proof.
  apply (proj2 painted_view_is_current pausedWorld).
  exact pausedWorld_reachable.
Defined.

Lemma scrollEvent_keeps_props_state (target : HTMLDivElement) (w : World) :
  props (self (scrollEvent target w).1) = props (self w)
  /\ state (self (scrollEvent target w).1) = state (self w).
Proof.
  unfold scrollEvent, onScroll.
  destruct (container_onScroll (painted w)) as [[]|]; try done.
  by destruct (_ && _).
Qed.

Lemma run_paused_keeps_state (es : list Event) (w : World) :
  Forall keepsPaused es ->
  exists w' calls,
    run es w = Done (w', calls) /\ state (self w') = state (self w).
Proof.
  intros Hes. revert w.
  induction Hes as [|e es He _ IH]; intros w.
  - by exists w, [].
  - destruct e as [p rc dom|target]; simpl in He; cbn [run].
    + destruct (update_total p rc dom w) as (w1 & calls1 & Hu).
      destruct (update_state _ _ _ _ _ _ Hu) as [_ Hst].
      unfold nextState in Hst. rewrite He in Hst.
      destruct (IH w1) as (w' & calls & Hrun & Hst').
      exists w', (calls1 ++ calls). rewrite Hu. cbn [mbind js_bind].
      rewrite Hrun. cbn [mbind js_bind]. split; [done|].
      by rewrite Hst', Hst.
    + destruct (scrollEvent_keeps_props_state target w) as [_ Hst].
      destruct (scrollEvent target w) as [w1 calls1]. simpl in Hst.
      destruct (IH w1) as (w' & calls & Hrun & Hst').
      exists w', (calls1 ++ calls). rewrite Hrun. cbn [mbind js_bind].
      split; [done|]. by rewrite Hst', Hst.
Qed.

(** X9. Resuming leaves no gap. After any trace of paused updates and
    scroll events, the update that resumes takes the result it carries as
    snapshot and, as threshold, the last row of the snapshot that was on
    screen when the trace began; the results delivered in between leave no
    trace. When that result is the frozen snapshot (in non-decreasing time
    order) followed by newer rows, exactly the rows that arrived since are
    highlighted. *)
Theorem resume_highlights_rows_since_pause
  (w : World) (es : list Event) (p : Props) (rc : bool) (dom : DOM) :
  Forall keepsPaused es ->
  isPaused p = false ->
  exists w1 calls1 w2 calls2,
    run es w = Done (w1, calls1)
    /\ update p rc dom w1 = Done (w2, calls2)
    /\ state (self w2)
         = {| logsResultToRender := logsResult p;
              lastTimestamp := lastRowTime (state (self w)) |}
    /\ forall (m : LogsModel) (added : list LogRowModel),
         nonDecreasing (snapshotRows (state (self w))) ->
         logsResult p = Some m ->
         rows m = snapshotRows (state (self w)) ++ added ->
         Forall (fun r => lastRowTime (state (self w)) < timeEpochMs r)
           added ->
         exists v,
           render (self w2) = Done v
           /\ className <$> rowViews v
                = drop (length (rows m) - 100)
                    (replicate (length (snapshotRows (state (self w))))
                       logsRowOld
                     ++ replicate (length added) logsRowFresh).
Proof.
  intros Hes Hp.
  destruct (run_paused_keeps_state es w Hes) as (w1 & calls1 & Hrun & Hst1).
  destruct (update_total p rc dom w1) as (w2 & calls2 & Hu).
  destruct (update_state _ _ _ _ _ _ Hu) as [Hprops Hst].
  unfold nextState in Hst. rewrite Hp, Hst1 in Hst.
  exists w1, calls1, w2, calls2. split; [done|]. split; [done|].
  split; [done|]. intros m added Hsorted Hm Hrows Hadded.
  exists (viewOf (self w2) (shownRows (self w2))).
  split; [apply render_shown|].
  apply (appended_rows_styles (self w2) m _ added);
    rewrite ?Hprops, ?Hst; cbn [logsResultToRender lastTimestamp];
    try done.
  apply Forall_forall. intros r Hr.
  by apply lastRowTime_bounds_sorted.
Qed.

(** Paused on t=99, 100 while results up to 200 and then up to 300 arrive:
    the resume shows the latest result with the threshold still at 100. *)
Lemma resume_highlights_rows_since_pause_witness :
  exists w1 calls1 w2 calls2,
    run [ Update (pausedProps (Some (logsUpTo 200))) true
            (domOf 450 500 1200);
          Scroll (mkDiv 0 500 1200);
          Update (pausedProps (Some (logsUpTo 300))) true
            (domOf 450 500 1200) ] pausedWorld
      = Done (w1, calls1)
    /\ update (liveProps (Some (logsUpTo 300))) true (domOf 700 500 1200) w1
         = Done (w2, calls2)
    /\ state (self w2)
         = {| logsResultToRender := Some (logsUpTo 300);
              lastTimestamp := 100 |}.
Proof.
  destruct (resume_highlights_rows_since_pause pausedWorld
              [ Update (pausedProps (Some (logsUpTo 200))) true
                  (domOf 450 500 1200);
                Scroll (mkDiv 0 500 1200);
                Update (pausedProps (Some (logsUpTo 300))) true
                  (domOf 450 500 1200) ]
              (liveProps (Some (logsUpTo 300))) true (domOf 700 500 1200))
    as (w1 & calls1 & w2 & calls2 & Hrun & Hu & Hst & _).
  - repeat constructor.
  - reflexivity.
  - exists w1, calls1, w2, calls2. split; [exact Hrun|].
    split; [exact Hu|]. exact Hst.
Defined.

(** X10. The pause freezes the data, not the display preference: an update
    that keeps the view paused but switches [timeZone] leaves the state
    alone and repaints every row of the frozen snapshot with the timestamp
    cell of the new time zone. *)
Theorem paused_update_repaints_timeZone
  (w : World) (p : Props) (rc : bool) (dom : DOM) :
  reachable w ->
  isPaused p = true ->
  exists w' calls,
    update p rc dom w = Done (w', calls)
    /\ state (self w') = state (self w)
    /\ rowViews (painted w')
         = imap (renderRow (self w') (bool_decide (timeZone p = "utc")))
             (snapshotRows (state (self w)))
    /\ (timeZone p = "utc" ->
        forall i rv, rowViews (painted w') !! i = Some rv ->
          exists row,
            snapshotRows (state (self w)) !! i = Some row
            /\ timeCells rv =
                 [ {| title :=
                        "Local: " +:+ timeLocal row +:+ " (" +:+
                          timeFromNow row +:+ ")";
                      text := timeUtc row |} ]).
Proof.
  intros Hw Hp.
  destruct (update_total p rc dom w) as (w' & calls & Hu).
  destruct (update_state _ _ _ _ _ _ Hu) as [Hprops Hst].
  unfold nextState in Hst. rewrite Hp in Hst.
  pose proof (invariant_update _ _ _ _ _ _ Hu (reachable_invariant w Hw))
    as [Hv _ _].
  exists w', calls. split; [done|]. split; [done|].
  assert (Hrows : rowViews (painted w')
                  = imap (renderRow (self w')
                            (bool_decide (timeZone p = "utc")))
                      (snapshotRows (state (self w)))).
  { rewrite Hv. unfold shownRows. simpl. by rewrite Hprops, Hp, Hst. }
  split; [done|]. intros Htz i rv. rewrite Hrows, list_lookup_imap.
  destruct (snapshotRows (state (self w)) !! i) as [row|]; [|done].
  intros [= <-]. exists row. split; [done|]. simpl.
  by rewrite bool_decide_eq_true_2.
Qed.

(** The paused view of t=99, 100 is switched to UTC: both frozen rows show
    their UTC time. *)
Lemma paused_update_repaints_timeZone_witness :
  exists w' calls,
    update {| logsResult := None; timeZone := "utc"; isPaused := true |}
      false (domOf 450 500 1200) pausedWorld = Done (w', calls)
    /\ state (self w') = state (self pausedWorld)
    /\ text <$> (rowViews (painted w') ≫= timeCells) = ["utc"; "utc"].
Proof.
  destruct (paused_update_repaints_timeZone pausedWorld
              {| logsResult := None; timeZone := "utc"; isPaused := true |}
              false (domOf 450 500 1200) pausedWorld_reachable eq_refl)
    as (w' & calls & Hu & Hst & Hrows & _).
  exists w', calls. split; [exact Hu|]. split; [exact Hst|].
  rewrite Hrows. reflexivity.
Defined.

(** ** React keys *)

Lemma pretty_N_go_noDash (x : N) (s : string) :
  noDash s -> noDash (pretty_N_go x s).
Proof.
  revert s. induction (N.lt_wf_0 x) as [x _ IH]; intros s Hs.
  assert (x = 0 \/ 0 < x)%N as [->|Hx] by lia.
  - by rewrite pretty_N_go_0.
  - rewrite pretty_N_go_step by done. apply IH.
    { by apply N.div_lt. }
    split; [|done]. unfold pretty_N_char. by repeat case_match.
Qed.

Lemma pretty_nat_noDash (n : nat) : noDash (pretty n).
Proof.
  unfold pretty, pretty_nat, pretty, pretty_N.
  destruct (decide (N.of_nat n = 0%N)); [by split|].
  by apply pretty_N_go_noDash.
Qed.

Lemma noDash_app_dash (a b : string) : ~ noDash (a +:+ String "-" b).
Proof.
  induction a as [|c a IH]; simpl.
  - by intros [Hc _].
  - intros [_ Ha]. by apply IH.
Qed.

Lemma dash_split (a1 a2 b1 b2 : string) :
  noDash b1 -> noDash b2 ->
  a1 +:+ String "-" b1 = a2 +:+ String "-" b2 ->
  a1 = a2 /\ b1 = b2.
Proof.
  intros Hb1 Hb2. revert a2.
  induction a1 as [|c1 a1 IH]; intros [|c2 a2]; simpl; intros Heq.
  - by injection Heq as ->.
  - injection Heq as _ ->. by destruct (noDash_app_dash a2 b2).
  - injection Heq as _ <-. by destruct (noDash_app_dash a1 b1).
  - injection Heq as -> Heq. destruct (IH a2 Heq) as [-> ->]. done.
Qed.

Lemma keyText_inj (k1 k2 : Z * nat) : keyText k1 = keyText k2 -> k1 = k2.
Proof.
  destruct k1 as [t1 i1], k2 as [t2 i2]. unfold keyText. simpl.
  intros [Ht Hi]%dash_split; try apply pretty_nat_noDash.
  apply (inj pretty) in Ht. apply (inj pretty) in Hi. by subst.
Qed.

(** X11. The React keys of the painted rows are pairwise distinct at every
    render, also when rows share a timestamp: a key is the decimal
    timestamp, a dash and the decimal position in the painted list, and
    different (timestamp, position) pairs never print the same text. *)
Theorem row_keys_are_distinct :
  (forall k1 k2 : Z * nat, keyText k1 = keyText k2 -> k1 = k2)
  /\ (forall (this : LiveLogs) (v : View),
        render this = Done v ->
        exists shown,
          rowsToRender this = Done shown
          /\ key <$> rowViews v
               = imap (fun index row => (timeEpochMs row, index)) shown
          /\ NoDup (keyText <$> (key <$> rowViews v))).
Proof.
  split; [apply keyText_inj|].
  intros this v. rewrite render_shown. intros [= <-].
  exists (shownRows this). split; [apply rowsToRender_eq|].
  assert (Hkeys : key <$> rowViews (viewOf this (shownRows this))
                  = imap (fun index row => (timeEpochMs row, index))
                      (shownRows this)).
  { simpl. by rewrite fmap_imap. }
  split; [done|]. rewrite Hkeys.
  apply (NoDup_fmap_2_strong keyText).
  { intros k1 k2 _ _. apply keyText_inj. }
  apply (NoDup_fmap_1 snd). rewrite fmap_imap.
  rewrite (imap_ext _ (fun index _ => index) (shownRows this)) by done.
  rewrite (imap_seq_0 (shownRows this) (fun index => index)).
  rewrite list_fmap_id. apply NoDup_seq.
Qed.

(** Two painted rows with the same timestamp get the keys 100-0 and
    100-1. *)
Lemma row_keys_are_distinct_witness :
  let this :=
    mkLiveLogs (liveProps None)
      (mkState (Some {| rows := [rowAt 100; rowAt 100] |}) 0)
      None None None in
  exists v,
    render this = Done v
    /\ keyText <$> (key <$> rowViews v) = ["100-0"; "100-1"]
    /\ NoDup (keyText <$> (key <$> rowViews v)).
Proof.
  intros this. exists (viewOf this [rowAt 100; rowAt 100]).
  split; [reflexivity|]. split; [reflexivity|].
  destruct (proj2 row_keys_are_distinct this
              (viewOf this [rowAt 100; rowAt 100]) eq_refl)
    as (shown & _ & _ & Hnodup).
  exact Hnodup.
Defined.

(** ** The two modes on screen *)

(** X12. In every reachable world the screen is in the mode of the current
    [isPaused], as a whole: live, with the scroll listener on the
    container, a "Pause" button with the pause icon wired to [onPause], and
    the elapsed-time indicator; or paused, with no listener, a "Resume"
    button with the play icon wired to [onResume], and no indicator. The
    exit button is wired to [stopLive] in both. *)
Theorem screen_mode_follows_isPaused (w : World) :
  reachable w ->
  exitButton_onClick (painted w) = props_stopLive
  /\ liveEndRef_isPaused (painted w) = isPaused (props (self w))
  /\ (isPaused (props (self w)) = false ->
      container_onScroll (painted w) = Some this_onScroll
      /\ pauseButton_onClick (painted w) = props_onPause
      /\ pauseButton_label (painted w) = "Pause"
      /\ pauseButton_icon (painted w) = "fa-pause"
      /\ lastLineReceived (painted w)
           = Some {| resetKey := logsResult (props (self w));
                     humanize := true |})
  /\ (isPaused (props (self w)) = true ->
      container_onScroll (painted w) = None
      /\ pauseButton_onClick (painted w) = props_onResume
      /\ pauseButton_label (painted w) = "Resume"
      /\ pauseButton_icon (painted w) = "fa-play"
      /\ lastLineReceived (painted w) = None).
Proof.
  intros Hw. destruct (reachable_invariant w Hw) as [Hv _ _].
  rewrite Hv. simpl. split; [done|]. split; [done|].
  split; intros ->; done.
Qed.

Lemma screen_mode_follows_isPaused_witness :
  container_onScroll (painted pausedWorld) = None
  /\ pauseButton_onClick (painted pausedWorld) = props_onResume
  /\ pauseButton_label (painted pausedWorld) = "Resume"
  /\ pauseButton_icon (painted pausedWorld) = "fa-play"
  /\ lastLineReceived (painted pausedWorld) = None.
Proof.
  destruct (screen_mode_follows_isPaused pausedWorld pausedWorld_reachable)
    as (_ & _ & _ & Hpaused).
  apply Hpaused. reflexivity.
Defined.

(** X13. Entering the pause never takes a row off the screen: the rows
    painted before the pausing update are the last rows of what is painted
    after it, which is the whole frozen snapshot; with at most 100 rows in
    the snapshot the painted rows do not change at all. *)
Theorem pausing_keeps_painted_rows
  (w : World) (p : Props) (rc : bool) (dom : DOM) :
  isPaused (props (self w)) = false ->
  isPaused p = true ->
  exists w' calls before after,
    update p rc dom w = Done (w', calls)
    /\ rowsToRender (self w) = Done before
    /\ rowsToRender (self w') = Done after
    /\ after = snapshotRows (state (self w))
    /\ (exists above, after = above ++ before)
    /\ ((length (snapshotRows (state (self w))) <= 100)%nat ->
        after = before).
Proof.
  intros Hp0 Hp.
  destruct (update_total p rc dom w) as (w' & calls & Hu).
  destruct (update_state _ _ _ _ _ _ Hu) as [Hprops Hst].
  unfold nextState in Hst. rewrite Hp in Hst.
  exists w', calls, (shownRows (self w)), (shownRows (self w')).
  split; [done|]. split; [apply rowsToRender_eq|].
  split; [apply rowsToRender_eq|].
  unfold shownRows. rewrite Hprops, Hp, Hp0, Hst.
  split; [done|]. split.
  - exists (take (length (snapshotRows (state (self w))) - 100)
              (snapshotRows (state (self w)))).
    by rewrite take_drop.
  - intros Hlen.
    replace (length (snapshotRows (state (self w))) - 100)%nat with 0%nat
      by lia.
    done.
Qed.

(** The live view of two rows is paused: the same two rows stay painted. *)
Lemma pausing_keeps_painted_rows_witness :
  exists w' calls,
    update (pausedProps (Some (logsUpTo 200))) true (domOf 500 500 1000)
      liveWorld = Done (w', calls)
    /\ rowsToRender (self liveWorld) = Done [rowAt 99; rowAt 100]
    /\ rowsToRender (self w') = Done [rowAt 99; rowAt 100].
Proof.
  destruct (pausing_keeps_painted_rows liveWorld
              (pausedProps (Some (logsUpTo 200))) true (domOf 500 500 1000)
              eq_refl eq_refl)
    as (w' & calls & before & after & Hu & Hb & Ha & Hafter & _ & _).
  exists w', calls. split; [exact Hu|]. split; [reflexivity|].
  rewrite Ha, Hafter. reflexivity.
Defined.
